(** * hyperjs: the search-space evaluator, the trial store and the domain adapter

    A shallow embedding of [src/base/base.js].  JavaScript values are an
    inductive type, numbers are IEEE-754 binary64 values ([spec_float]),
    exceptions are an explicit result type, and the mutable [Trials] object
    is a record threaded through its methods. *)

From Stdlib Require Import List String Ascii ZArith Bool Lia DecimalString.
From Stdlib Require Import Floats.SpecFloat.
Import ListNotations.
Open Scope string_scope.
Set Warnings "-register-all".

(* ================================================================== *)
(** * Part I: definitions                                               *)
(* ================================================================== *)

(** ** JavaScript values and the operators the source uses *)

Module JS.

(** A JS number is a binary64 float; [spec_float] has one NaN, two zeros and
    two infinities, as JS does.  Finite values are kept in canonical form
    (53-bit mantissa), the form [num_of_Z] and [num] produce. *)
Definition number : Type := spec_float.

Definition num (m e : Z) : number := binary_normalize 53 1024 m e false.
Definition num_of_Z (z : Z) : number := num z 0.
Definition NaN : number := S754_nan.
Definition Infinity : number := S754_infinity false.
Definition NegInfinity : number := S754_infinity true.

(** Primitive values (the ones [===] compares by value). *)
Inductive prim : Type :=
| PUndefined
| PNull
| PBool (b : bool)
| PNum (x : number)
| PStr (s : string).

(** Values: primitives, arrays, and plain objects.  An object is the list of
    its own enumerable properties in [Object.keys] order; a JS object never
    has the same key twice ([wf] below). *)
Inductive value : Type :=
| VPrim (p : prim)
| VArr (items : list value)
| VObj (props : list (string * value)).

Coercion VPrim : prim >-> value.

Definition undefined : value := VPrim PUndefined.
Definition null : value := VPrim PNull.
Definition str (s : string) : value := VPrim (PStr s).
Definition numv (x : number) : value := VPrim (PNum x).

(** Exceptions.  [TypeError] is the runtime's (property read or destructuring
    of null/undefined, [Object.keys] of null/undefined); the others are the
    [new Error(...)] the source throws, one constructor per message. *)
Inductive error : Type :=
| TypeError
| TrialShouldBeObject                          (* 'trial should be an object' *)
| TrialMissingKey (key : string)               (* `trial missing key ${key}` *)
| WrongTrialExpKey (got : value) (expected : prim)
                                               (* `wrong trial expKey ${got}, expected ${expected}` *)
| ShouldReturnLoss                             (* 'Optimization function should return a loss value' *)
| InvalidStatus (status : value)               (* `invalid status ${status}` *)
| InvalidLossAndAccuracy                       (* 'invalid loss and accuracy' *)
| Raised (payload : value).                    (* thrown by a callback the source receives *)

(** The outcome of running a piece of code: a value, an exception, or (for
    the fuelled evaluator only) not enough fuel. *)
Inductive result (A : Type) : Type :=
| Ok (a : A)
| Throw (e : error)
| Fuel.

Arguments Ok {A} a.
Arguments Throw {A} e.
Arguments Fuel {A}.

Definition bind {A B} (m : result A) (k : A -> result B) : result B :=
  match m with
  | Ok a => k a
  | Throw e => Throw e
  | Fuel => Fuel
  end.

Declare Scope js_scope.
Delimit Scope js_scope with js.
Notation "x <- m ;; k" := (bind m (fun x => k))
  (at level 61, m at next level, right associativity) : js_scope.
Notation "' pat <- m ;; k" := (bind m (fun x => match x with pat => k end))
  (at level 61, pat pattern, m at next level, right associativity) : js_scope.
Open Scope js_scope.

(** [Array.prototype.map], [filter], [find] and [forEach]/[reduce] with a
    callback that may throw: left to right, stopping at the first throw. *)
Fixpoint mapM {A B} (f : A -> result B) (l : list A) : result (list B) :=
  match l with
  | [] => Ok []
  | x :: xs => y <- f x ;; ys <- mapM f xs ;; Ok (y :: ys)
  end.

Fixpoint filterM {A} (f : A -> result bool) (l : list A) : result (list A) :=
  match l with
  | [] => Ok []
  | x :: xs => b <- f x ;; ys <- filterM f xs ;; Ok (if b then x :: ys else ys)
  end.

Fixpoint findM {A} (f : A -> result bool) (l : list A) : result (option A) :=
  match l with
  | [] => Ok None
  | x :: xs => b <- f x ;; if b then Ok (Some x) else findM f xs
  end.

Fixpoint foldM {A B} (f : B -> A -> result B) (l : list A) (acc : B) : result B :=
  match l with
  | [] => Ok acc
  | x :: xs => acc' <- f acc x ;; foldM f xs acc'
  end.

(** Strict equality [===] with a primitive on one side.  Numbers compare as
    floats: NaN differs from itself, +0 equals -0. *)
Definition prim_strict_eq (p q : prim) : bool :=
  match p, q with
  | PUndefined, PUndefined => true
  | PNull, PNull => true
  | PBool a, PBool b => Bool.eqb a b
  | PNum x, PNum y => SFeqb x y
  | PStr s, PStr t => String.eqb s t
  | _, _ => false
  end.

Definition strict_eq (v : value) (p : prim) : bool :=
  match v with
  | VPrim q => prim_strict_eq q p
  | _ => false
  end.

Notation "v === p" := (strict_eq v p) (at level 70, no associativity) : js_scope.
Notation "v !== p" := (negb (strict_eq v p)) (at level 70, no associativity) : js_scope.

(** [arr.indexOf(v)] for an array of primitives: the first index whose
    element is [===] to [v], or -1. *)
Fixpoint indexOf_from (i : Z) (arr : list prim) (v : value) : Z :=
  match arr with
  | [] => (-1)%Z
  | p :: rest => if v === p then i else indexOf_from (i + 1)%Z rest v
  end.

Definition indexOf (arr : list prim) (v : value) : Z := indexOf_from 0%Z arr v.

(** Own property lookup, and the property read [v.key] / [v[key]].  Reading a
    property of null or undefined throws; the source only reads the names
    [name], [id], [result], [args], [state], [book_time], [refresh_time],
    [expKey], [status], [loss], [accuracy] and own keys of an object, none of
    which a string, number, boolean or array has. *)
Fixpoint own (key : string) (props : list (string * value)) : value :=
  match props with
  | [] => undefined
  | (k, v) :: rest => if String.eqb k key then v else own key rest
  end.

Definition is_nullish (v : value) : bool :=
  match v with
  | VPrim PUndefined | VPrim PNull => true
  | _ => false
  end.

Definition get (v : value) (key : string) : result value :=
  match v with
  | VPrim PUndefined | VPrim PNull => Throw TypeError
  | VObj props => Ok (own key props)
  | _ => Ok undefined
  end.

(** [{ ...r, [key]: v }]: overwrite in place or append. *)
Fixpoint obj_set (props : list (string * value)) (key : string) (v : value)
  : list (string * value) :=
  match props with
  | [] => [(key, v)]
  | (k, x) :: rest =>
      if String.eqb k key then (k, v) :: rest else (k, x) :: obj_set rest key v
  end.

Definition keys (props : list (string * value)) : list string := map fst props.

(** [typeof v === 'number'], [Number.isNaN(v)], [Array.isArray(v)]. *)
Definition typeof_number (v : value) : bool :=
  match v with VPrim (PNum _) => true | _ => false end.

Definition Number_isNaN (v : value) : bool :=
  match v with VPrim (PNum S754_nan) => true | _ => false end.

(** ToBoolean, as [||], [&&] and [if] apply it. *)
Definition ToBoolean (v : value) : bool :=
  match v with
  | VPrim PUndefined | VPrim PNull => false
  | VPrim (PBool b) => b
  | VPrim (PNum (S754_zero _)) | VPrim (PNum S754_nan) => false
  | VPrim (PNum _) => true
  | VPrim (PStr s) => negb (String.eqb s "")
  | VArr _ | VObj _ => true
  end.

(** The relational operators.  ToPrimitive of an array or object and the
    number a string denotes are the runtime's; they are parameters here. *)
Section Relational.
Variable ObjectToPrimitive : value -> prim.
Variable StringToNumber : string -> number.

Definition ToPrimitive (v : value) : prim :=
  match v with
  | VPrim p => p
  | _ => ObjectToPrimitive v
  end.

Definition ToNumber (p : prim) : number :=
  match p with
  | PUndefined => NaN
  | PNull => S754_zero false
  | PBool true => num_of_Z 1
  | PBool false => S754_zero false
  | PNum x => x
  | PStr s => StringToNumber s
  end.

(** [a < b]: two strings compare by code unit, anything else as numbers;
    a comparison with NaN is false. *)
Definition lt (a b : value) : bool :=
  match ToPrimitive a, ToPrimitive b with
  | PStr s, PStr t => String.ltb s t
  | pa, pb => SFltb (ToNumber pa) (ToNumber pb)
  end.

(** [a > b] is [b < a]. *)
Definition gt (a b : value) : bool := lt b a.
End Relational.

(** Well-formed values: no object has a duplicate key. *)
Fixpoint nodupb (l : list string) : bool :=
  match l with
  | [] => true
  | x :: xs => negb (existsb (String.eqb x) xs) && nodupb xs
  end.

Fixpoint wf (v : value) : bool :=
  match v with
  | VPrim _ => true
  | VArr items => forallb wf items
  | VObj props => nodupb (keys props) && forallb (fun kv => wf (snd kv)) props
  end.

Fixpoint height (v : value) : nat :=
  match v with
  | VPrim _ => 0
  | VArr items => S (fold_right (fun x h => Nat.max (height x) h) 0 items)
  | VObj props => S (fold_right (fun kv h => Nat.max (height (snd kv)) h) 0 props)
  end.

(** The nodes of a tree: the value itself, the elements of its arrays and
    the property values of its objects, at every depth. *)
Fixpoint nodes (v : value) : list value :=
  v :: match v with
       | VPrim _ => []
       | VArr items => flat_map nodes items
       | VObj props => flat_map (fun kv => nodes (snd kv)) props
       end.

End JS.

Import JS.
Open Scope js_scope.

(** ** BaseSpace: the expression evaluator *)

Module BaseSpace.
Section Evaluator.
(** [RandomState] lives in [../utils/RandomState], outside this file: its
    state is an abstract type and [new RandomState()] a parameter. *)
Variable RandomState : Type.
Variable newRandomState : RandomState.

(** A sampling capability: [space(rest, rng)].  It may advance the random
    state and it may throw. *)
Definition capability : Type :=
  value -> RandomState -> result (value * RandomState).

(** [this[name]] when it is a function, for every function-valued property
    reachable from the evaluator instance (methods a subclass adds,
    inherited ones, and the [eval] field itself); [None] when
    [typeof this[name] !== 'function']. *)
Variable this : value -> option capability.

(** [const { name, ...rest } = expr] on a non-null [expr]. *)
Definition name_of (expr : value) : value :=
  match expr with
  | VObj props => own "name" props
  | _ => undefined
  end.

Definition index_key (i : nat) : string :=
  NilEmpty.string_of_uint (Nat.to_uint i).

Fixpoint indexed (i : nat) (items : list value) : list (string * value) :=
  match items with
  | [] => []
  | x :: xs => (index_key i, x) :: indexed (S i) xs
  end.

Fixpoint chars (s : string) : list value :=
  match s with
  | EmptyString => []
  | String c s' => str (String c EmptyString) :: chars s'
  end.

Definition rest_of (expr : value) : value :=
  match expr with
  | VObj props =>
      VObj (filter (fun kv => negb (String.eqb (fst kv) "name")) props)
  | VArr items => VObj (indexed 0 items)
  | VPrim (PStr s) => VObj (indexed 0 (chars s))
  | VPrim _ => VObj []
  end.

(** A recursive call [this.eval(item, { rng })] on the shared random
    state: the callee receives [rng] and leaves it in the state returned. *)
Definition call
    (self : value -> option RandomState -> result (value * option RandomState))
    (item : value) (rng : RandomState) : result (value * RandomState) :=
  '(v, after) <- self item (Some rng) ;;
  Ok (v, match after with Some rng' => rng' | None => rng end).

(** [expr.map(item => this.eval(item, { rng }))]. *)
Fixpoint map_eval (ev : value -> RandomState -> result (value * RandomState))
    (items : list value) (rng : RandomState)
  : result (list value * RandomState) :=
  match items with
  | [] => Ok ([], rng)
  | item :: rest =>
      '(v, rng1) <- ev item rng ;;
      '(vs, rng2) <- map_eval ev rest rng1 ;;
      Ok (v :: vs, rng2)
  end.

(** [Object.keys(expr).reduce((r, key) =>
      ({ ...r, [key]: this.eval(expr[key], { rng }) }), {})]. *)
Definition reduce_eval (ev : value -> RandomState -> result (value * RandomState))
    (props : list (string * value)) (rng : RandomState)
  : result (list (string * value) * RandomState) :=
  foldM (fun '(r, rng0) key =>
           '(v, rng1) <- ev (own key props) rng0 ;;
           Ok (obj_set r key v, rng1))
        (keys props) ([], rng).

(** What the caller's random state looks like after the call: the object it
    passed, advanced; nothing when it passed none. *)
Definition leave (rState : option RandomState) (rng : RandomState)
  : option RandomState :=
  match rState with Some _ => Some rng | None => None end.

(** [eval = (expr, { rng: rState }) => ...]; [rState] is the [rng] field of the
    options object, [None] when it is undefined.  The recursion is on the
    depth of the tree; [fuel] bounds it. *)
Fixpoint eval (fuel : nat) (expr : value) (rState : option RandomState)
  : result (value * option RandomState) :=
  match fuel with
  | O => Fuel
  | S fuel' =>
      if (expr === PUndefined) || (expr === PNull) then Ok (expr, rState)
      else
        let rng :=
          match rState with
          | Some r => r
          | None => newRandomState
          end in
        let name := name_of expr in
        let rest := rest_of expr in
        match this name with
        | None =>
            match expr with
            | VArr items =>
                '(vs, rng') <- map_eval (call (eval fuel')) items rng ;;
                Ok (VArr vs, leave rState rng')
            | VObj props =>
                '(r, rng') <- reduce_eval (call (eval fuel')) props rng ;;
                Ok (VObj r, leave rState rng')
            | VPrim _ => Ok (expr, leave rState rng)
            end
        | Some space =>
            '(v, rng') <- space rest rng ;;
            Ok (v, leave rState rng')
        end
  end.
End Evaluator.
End BaseSpace.

(** ** An evaluator instance: what [this[name]] is, and a call of [eval] *)

Module Instance.
Section Instance.
Variable RandomState : Type.
Variable newRandomState : RandomState.

(** [RandomState] is outside this file.  When [this.eval] is itself reached
    as a capability its second argument, the options object, is the random
    state: [rng_field] is that object's [rng] property (None when it is
    undefined) and [with_rng_field] the object with that property in a new
    state. *)
Variable rng_field : RandomState -> option RandomState.
Variable with_rng_field : RandomState -> RandomState -> RandomState.

(** The conversion of a number, an array or an object to a property key
    (Number::toString, ToPrimitive) is the runtime's; it may throw. *)
Variable ToPropertyKey_runtime : value -> result string.

(** The sampling capabilities registered on the evaluator, by name: the
    function-valued properties a subclass or a composition adds. *)
Variable registered : string -> option (BaseSpace.capability RandomState).

(** [this[name]] converts [name] to a property key. *)
Definition ToPropertyKey (name : value) : result string :=
  match name with
  | VPrim PUndefined => Ok "undefined"
  | VPrim PNull => Ok "null"
  | VPrim (PBool true) => Ok "true"
  | VPrim (PBool false) => Ok "false"
  | VPrim (PStr key) => Ok key
  | _ => ToPropertyKey_runtime name
  end.

(** The function-valued properties every instance of the class has without
    registering anything: its own field [eval], [constructor] from the class
    prototype, and the methods of Object.prototype. *)
Definition OBJECT_PROTOTYPE_NEEDS_THIS : list string :=
  ["toLocaleString"; "valueOf"; "hasOwnProperty"; "isPrototypeOf";
   "propertyIsEnumerable"; "__defineGetter__"; "__defineSetter__";
   "__lookupGetter__"; "__lookupSetter__"].

Definition FUNCTION_PROPERTIES : list string :=
  "eval" :: "constructor" :: "toString" :: OBJECT_PROTOTYPE_NEEDS_THIS.

(** What the inherited ones do when [eval] calls them as [space(rest, rng)],
    a plain call in strict code, so with [this] undefined:
    Object.prototype.toString answers for undefined, the class constructor
    refuses a call without [new], and the other methods of Object.prototype
    fail to convert their [this] to an object. *)
Definition inherited (key : string)
  : option (BaseSpace.capability RandomState) :=
  if String.eqb key "toString"
  then Some (fun _ rng => Ok (str "[object Undefined]", rng))
  else if String.eqb key "constructor"
          || existsb (String.eqb key) OBJECT_PROTOTYPE_NEEDS_THIS
  then Some (fun _ _ => Throw TypeError)
  else None.

(** [this.eval] reached as a capability: [this.eval(rest, rng)] binds
    [rState] to [rng.rng]. *)
Definition as_capability
    (ev : value -> option RandomState -> result (value * option RandomState))
  : BaseSpace.capability RandomState :=
  fun rest rng =>
    '(v, after) <- ev rest (rng_field rng) ;;
    Ok (v, match after with
           | Some inner => with_rng_field rng inner
           | None => rng
           end).

(** [this[name]] when it is a function.  A registered property shadows an
    inherited one; when the conversion of [name] to a property key throws,
    so does the evaluation of [this[name]], which is what the entry then
    does.  [depth] bounds the nesting of [eval] reached through its own
    name. *)
Fixpoint this (depth : nat) (name : value)
  : option (BaseSpace.capability RandomState) :=
  match ToPropertyKey name with
  | Ok key =>
      match registered key with
      | Some space => Some space
      | None =>
          if String.eqb key "eval"
          then Some match depth with
                    | O => fun _ _ => Fuel
                    | S depth' =>
                        as_capability
                          (BaseSpace.eval RandomState newRandomState
                                          (this depth') depth')
                    end
          else inherited key
      end
  | Throw e => Some (fun _ _ => Throw e)
  | Fuel => Some (fun _ _ => Fuel)
  end.

(** A call [evaluator.eval(expr, options)]: the parameter pattern
    [{ rng: rState }] is matched against [options] before the body runs, and
    matching it against undefined or null throws.  [options] is [None] for
    a missing (or null) options object, otherwise its [rng] property. *)
Definition eval (fuel : nat) (expr : value)
    (options : option (option RandomState))
  : result (value * option RandomState) :=
  match options with
  | None => Throw TypeError
  | Some rState =>
      BaseSpace.eval RandomState newRandomState (this fuel) fuel expr rState
  end.
End Instance.
End Instance.

(** ** Exported constants *)

Definition STATUS_NEW : prim := PStr "new".
Definition STATUS_RUNNING : prim := PStr "running".
Definition STATUS_SUSPENDED : prim := PStr "suspended".
Definition STATUS_OK : prim := PStr "ok".
Definition STATUS_FAIL : prim := PStr "fail".
Definition STATUS_STRINGS : list prim :=
  [PStr "new"; PStr "running"; PStr "suspended"; PStr "ok"; PStr "fail"].

Definition JOB_STATE_NEW : prim := PNum (num_of_Z 0).
Definition JOB_STATE_RUNNING : prim := PNum (num_of_Z 1).
Definition JOB_STATE_DONE : prim := PNum (num_of_Z 2).
Definition JOB_STATE_ERROR : prim := PNum (num_of_Z 3).
Definition JOB_STATES : list prim :=
  [JOB_STATE_NEW; JOB_STATE_RUNNING; JOB_STATE_DONE; JOB_STATE_ERROR].

Definition TRIAL_KEYS : list string :=
  ["id"; "result"; "args"; "state"; "book_time"; "refresh_time"].

(** [range(start, end)]: [Array.from({ length: end - start }, (v, k) => k + start)].
    Lengths and ids are integers, kept in [Z] (exact in binary64 below 2^53);
    a negative length gives the empty array. *)
Definition range (start end_ : Z) : list Z :=
  map (fun k => (Z.of_nat k + start)%Z) (seq 0 (Z.to_nat (end_ - start))).

(** ** Trials: the trial store *)

Module Trials.

Record t : Type := mk {
  ids : list Z;
  dynamicTrials : list value;
  trials : list value;
  expKey : prim
}.

(** A method that may assign to fields of [this] returns its outcome and the
    store it leaves; a throw leaves the assignments made before it. *)
Definition on_ok {A B} (m : result A) (this : t) (k : A -> result B * t)
  : result B * t :=
  match m with
  | Ok a => k a
  | Throw e => (Throw e, this)
  | Fuel => (Fuel, this)
  end.

Definition refresh (this : t) : result unit * t :=
  if VPrim (expKey this) === PNull then
    on_ok (filterM (fun trial =>
                      state <- get trial "state" ;;
                      Ok (state !== JOB_STATE_ERROR))
                   (dynamicTrials this)) this
      (fun view => (Ok tt, mk (ids this) (dynamicTrials this) view (expKey this)))
  else
    on_ok (filterM (fun trial =>
                      state <- get trial "state" ;;
                      if state !== JOB_STATE_ERROR
                      then (key <- get trial "expKey" ;; Ok (key === expKey this))
                      else Ok false)
                   (dynamicTrials this)) this
      (fun view => (Ok tt, mk [] (dynamicTrials this) view (expKey this))).

(** [constructor(expKey = null, refresh = true)]. *)
Definition new (expKey : prim) (do_refresh : bool) : t :=
  let this := mk [] [] [] expKey in
  if do_refresh then snd (refresh this) else this.

(** [get length()]. *)
Definition length (this : t) : nat := List.length (trials this).

(** [get results()], [get args()]. *)
Definition results (this : t) : result (list value) :=
  mapM (fun trial => get trial "result") (trials this).

Definition args (this : t) : result (list value) :=
  mapM (fun trial => get trial "args") (trials this).

(** [Object.keys(trial).length]. *)
Definition keys_length (trial : value) : result nat :=
  match trial with
  | VPrim PUndefined | VPrim PNull => Throw TypeError
  | VPrim (PStr s) => Ok (String.length s)
  | VPrim _ => Ok 0
  | VArr items => Ok (List.length items)
  | VObj props => Ok (List.length props)
  end.

Definition assertValidTrial (this : t) (trial : value) : result value :=
  n <- keys_length trial ;;
  if (n <=? 0)%nat then Throw TrialShouldBeObject
  else
    missingTrialKey <-
      findM (fun key => field <- get trial key ;; Ok (field === PUndefined))
            TRIAL_KEYS ;;
    match missingTrialKey with
    | Some key => Throw (TrialMissingKey key)
    | None =>
        key <- get trial "expKey" ;;
        if key !== expKey this
        then Throw (WrongTrialExpKey key (expKey this))
        else Ok trial
    end.

Definition internalInsertTrialDocs (this : t) (docs : list value)
  : result (list value) * t :=
  on_ok (mapM (fun doc => get doc "id") docs) this
    (fun rval =>
       (Ok rval,
        mk (ids this) (dynamicTrials this ++ docs) (trials this) (expKey this))).

Definition insertTrialDoc (this : t) (trial : value) : result value * t :=
  on_ok (assertValidTrial this trial) this
    (fun doc =>
       let '(rval, this') := internalInsertTrialDocs this [doc] in
       (ids <- rval ;; Ok (hd undefined ids), this')).

Definition insertTrialDocs (this : t) (trials : list value)
  : result (list value) * t :=
  on_ok (mapM (assertValidTrial this) trials) this
    (fun docs => internalInsertTrialDocs this docs).

Definition newTrialIds (this : t) (N : Z) : list Z * t :=
  let aa := Z.of_nat (List.length (ids this)) in
  let rval := range aa (aa + N) in
  (rval, mk (ids this ++ rval) (dynamicTrials this) (trials this) (expKey this)).

(** [results[i]] and [args[i]] are [undefined] past the end of the array. *)
Fixpoint newTrialDocs_from (this : t) (i : nat) (ids : list Z)
    (results args : list value) : list value :=
  match ids with
  | [] => []
  | id :: rest =>
      VObj [("state", VPrim JOB_STATE_NEW);
            ("id", numv (num_of_Z id));
            ("result", nth i results undefined);
            ("args", nth i args undefined);
            ("expKey", VPrim (expKey this));
            ("book_time", null);
            ("refresh_time", null)]
      :: newTrialDocs_from this (S i) rest results args
  end.

Definition newTrialDocs (this : t) (ids : list Z) (results args : list value)
  : list value :=
  newTrialDocs_from this 0 ids results args.

Definition deleteAll (this : t) : result unit * t :=
  refresh (mk (ids this) [] (trials this) (expKey this)).

(** The [arg] of the counting methods: one state or an array of states. *)
Inductive states : Type :=
| One (state : prim)
| Many (among : list prim).

Definition countByStateSynced (this : t) (arg : states)
    (trials_arg : option (list value)) : result nat :=
  let vTrials :=
    match trials_arg with
    | None => trials this
    | Some given => given
    end in
  let vArg :=
    match arg with
    | Many among => among
    | One state => [state]
    end in
  queue <- filterM (fun doc =>
                      state <- get doc "state" ;;
                      Ok (0 <=? indexOf vArg state)%Z)
                   vTrials ;;
  Ok (List.length queue).

Definition countByStateUnsynced (this : t) (arg : states) : result nat :=
  expTrials <-
    (if VPrim (expKey this) !== PNull
     then mapM (fun trial =>
                  key <- get trial "expKey" ;;
                  Ok (VPrim (PBool (key === expKey this))))
               (dynamicTrials this)
     else Ok (dynamicTrials this)) ;;
  countByStateSynced this arg (Some expTrials).

(** [r.loss || r.accuracy]. *)
Definition loss_or_accuracy (r : value) : result value :=
  loss <- get r "loss" ;;
  if ToBoolean loss then Ok loss else get r "accuracy".

Definition losses (this : t) : result (list value) :=
  rs <- results this ;; mapM loss_or_accuracy rs.

Definition statuses (this : t) : result (list value) :=
  rs <- results this ;; mapM (fun r => get r "status") rs.

(** [bestTrial(compare)]: [best] starts as [this.trials[0]] and the loop
    replaces it by every OK trial the comparator prefers. *)
Definition bestTrial (this : t) (compare : value -> value -> result bool)
  : result value :=
  let best := hd undefined (trials this) in
  foldM (fun best trial =>
           r <- get trial "result" ;;
           status <- get r "status" ;;
           if status === STATUS_OK
           then
             a <- get trial "result" ;;
             b <- get best "result" ;;
             better <- compare a b ;;
             Ok (if better then trial else best)
           else Ok best)
        (trials this) best.

Section Comparators.
Variable ObjectToPrimitive : value -> prim.
Variable StringToNumber : string -> number.

Definition lt : value -> value -> bool := JS.lt ObjectToPrimitive StringToNumber.
Definition gt : value -> value -> bool := JS.gt ObjectToPrimitive StringToNumber.

(** The default comparator:
    [a.loss !== undefined ? a.loss < b.loss : a.accuracy > b.accuracy]. *)
Definition compare_min (a b : value) : result bool :=
  loss <- get a "loss" ;;
  if loss !== PUndefined
  then (x <- get a "loss" ;; y <- get b "loss" ;; Ok (lt x y))
  else (x <- get a "accuracy" ;; y <- get b "accuracy" ;; Ok (gt x y)).

(** The comparator of [argmax]:
    [a.loss !== undefined ? a.loss > b.loss : a.accuracy > b.accuracy]. *)
Definition compare_max (a b : value) : result bool :=
  loss <- get a "loss" ;;
  if loss !== PUndefined
  then (x <- get a "loss" ;; y <- get b "loss" ;; Ok (gt x y))
  else (x <- get a "accuracy" ;; y <- get b "accuracy" ;; Ok (gt x y)).

Definition argmin (this : t) : result value :=
  best <- bestTrial this compare_min ;;
  if best !== PUndefined then get best "args" else Ok undefined.

Definition argmax (this : t) : result value :=
  best <- bestTrial this compare_max ;;
  if best !== PUndefined then get best "args" else Ok undefined.
End Comparators.

End Trials.

(** ** Domain: the objective-function adapter *)

Module Domain.

(** The objective function [fn(args, params)] is the caller's; [await] on
    its result is sequencing here. *)
Record t : Type := mk {
  fn : value -> value -> result value;
  expr : value;
  params : value
}.

Definition evaluate (this : t) (args : value) : result value :=
  rval <- fn this args (params this) ;;
  if typeof_number rval && negb (Number_isNaN rval)
  then Ok (VObj [("loss", rval); ("status", VPrim STATUS_OK)])
  else
    let result_ := rval in
    if result_ === PUndefined then Throw ShouldReturnLoss
    else
      status <- get result_ "status" ;;
      loss <- get result_ "loss" ;;
      accuracy <- get result_ "accuracy" ;;
      if (indexOf STATUS_STRINGS status <? 0)%Z
      then Throw (InvalidStatus status)
      else if (status === STATUS_OK) && (loss === PUndefined)
              && (accuracy === PUndefined)
      then Throw InvalidLossAndAccuracy
      else Ok result_.

Definition newResult : value := VObj [("status", VPrim STATUS_NEW)].

End Domain.

(** ** Vocabulary of the statements *)

(** [v.key] where it cannot throw: the field of an object, [undefined] for
    anything else. *)
Definition field (v : value) (key : string) : value :=
  match v with
  | VObj props => own key props
  | _ => undefined
  end.

Definition is_NaN (x : number) : bool :=
  match x with S754_nan => true | _ => false end.

(** A finite number: neither NaN nor an infinity. *)
Definition is_finite_number (v : value) : bool :=
  match v with
  | VPrim (PNum (S754_zero _)) | VPrim (PNum (S754_finite _ _ _)) => true
  | _ => false
  end.

(** [{ loss: v, status: STATUS_OK }]. *)
Definition wrap_loss (v : value) : value :=
  VObj [("loss", v); ("status", VPrim STATUS_OK)].

(** A domain whose objective function returns [v] whatever it is given. *)
Definition returning (v : value) : Domain.t :=
  Domain.mk (fun _ _ => Ok v) undefined undefined.


(** A trial record is usable when reading its fields cannot throw. *)
Definition readable (v : value) : Prop := is_nullish v = false.

(** [refresh]'s criterion, as the spec words it: the state is not ERROR and,
    when the store has a non-null experiment key, the record's key is the
    store's. *)
Definition retained (s : Trials.t) (trial : value) : bool :=
  (field trial "state" !== JOB_STATE_ERROR)
  && ((VPrim (Trials.expKey s) === PNull)
      || (field trial "expKey" === Trials.expKey s)).

(** A required field is absent when reading it gives [undefined]. *)
Definition absent (props : list (string * value)) (key : string) : Prop :=
  own key props = undefined.

(** A complete trial record, fields in the order [newTrialDocs] writes them. *)
Definition doc (id : Z) (result_ args : value) (state expKey : prim) : value :=
  VObj [("state", VPrim state);
        ("id", numv (num_of_Z id));
        ("result", result_);
        ("args", args);
        ("expKey", VPrim expKey);
        ("book_time", null);
        ("refresh_time", null)].

(** The empty store [new Trials(expKey)]. *)
Definition empty (expKey : prim) : Trials.t := Trials.new expKey true.

(** The count the spec asks of [countByStateUnsynced]: the records of the
    authoritative list with the store's experiment key and a state among the
    given ones. *)
Definition among (arg : Trials.states) : list prim :=
  match arg with
  | Trials.One state => [state]
  | Trials.Many states => states
  end.

Definition count_matching (s : Trials.t) (arg : Trials.states) : nat :=
  List.length
    (filter (fun t => (field t "expKey" === Trials.expKey s)
                      && existsb (fun p => field t "state" === p) (among arg))
            (Trials.dynamicTrials s)).

(** A store with key "A" holding one NEW trial of that experiment. *)
Definition one_new_trial : Trials.t :=
  let t := doc 0 Domain.newResult (str "x") JOB_STATE_NEW (PStr "A") in
  Trials.mk [0%Z] [t] [t] (PStr "A").


(** Results and trials of the scenarios: a failed evaluation with loss 0.1,
    finished ones with losses 0.5 and 0.2, one whose loss is NaN. *)
Definition result_of (status : prim) (loss : number) : value :=
  VObj [("status", VPrim status); ("loss", numv loss)].

Definition tenth : number := num 7205759403792794 (-56).
Definition fifth : number := num 7205759403792794 (-55).
Definition half : number := num 1 (-1).

Definition failed_trial : value :=
  doc 0 (result_of STATUS_FAIL tenth) (str "a") JOB_STATE_DONE PNull.
Definition half_trial : value :=
  doc 1 (result_of STATUS_OK half) (str "b") JOB_STATE_DONE PNull.
Definition fifth_trial : value :=
  doc 2 (result_of STATUS_OK fifth) (str "c") JOB_STATE_DONE PNull.
Definition nan_trial : value :=
  doc 3 (result_of STATUS_OK NaN) (str "d") JOB_STATE_DONE PNull.

(** A store whose derived view is [view] (and is in sync with the list). *)
Definition viewing (view : list value) : Trials.t :=
  Trials.mk [] view view PNull.

(** The result, status, loss, accuracy and args of a trial record. *)
Definition status_of (t : value) : value := field (field t "result") "status".
Definition loss_of (t : value) : value := field (field t "result") "loss".
Definition accuracy_of (t : value) : value := field (field t "result") "accuracy".
Definition args_of (t : value) : value := field t "args".

(** The number a value is, NaN when it is not one. *)
Definition number_of (v : value) : number :=
  match v with
  | VPrim (PNum x) => x
  | _ => NaN
  end.

(** [a <= b] between two numbers (false when either is NaN or not a
    number). *)
Definition num_le (a b : value) : bool :=
  match a, b with
  | VPrim (PNum x), VPrim (PNum y) => SFleb x y
  | _, _ => false
  end.

Definition proper_number (v : value) : Prop :=
  exists x, v = numv x /\ is_NaN x = false.

(** An OK trial whose loss is a number other than NaN; an OK trial without
    loss whose accuracy is a number other than NaN. *)
Definition ok_with_loss (t : value) : Prop :=
  status_of t = VPrim STATUS_OK /\ proper_number (loss_of t).

Definition ok_with_accuracy_only (t : value) : Prop :=
  status_of t = VPrim STATUS_OK /\ loss_of t = undefined
  /\ proper_number (accuracy_of t).

(** The loop body of [bestTrial]. *)
Definition bestTrial_step (compare : value -> value -> result bool)
    (best trial : value) : result value :=
  r <- get trial "result" ;;
  status <- get r "status" ;;
  if status === STATUS_OK
  then
    a <- get trial "result" ;;
    b <- get best "result" ;;
    better <- compare a b ;;
    Ok (if better then trial else best)
  else Ok best.

(** The spec's scenario: insert the loss-0.5 and the loss-0.2 trial into an
    empty store, then refresh the view. *)
Definition two_inserted : Trials.t :=
  let s1 := snd (Trials.insertTrialDoc (empty PNull) half_trial) in
  let s2 := snd (Trials.insertTrialDoc s1 fifth_trial) in
  snd (Trials.refresh s2).

(** A recursive call of the evaluator that returns its argument and leaves
    the random state alone. *)
Definition returns_unchanged (RandomState : Type)
    (ev : value -> option RandomState -> result (value * option RandomState))
    (expr : value) : Prop :=
  forall rng, BaseSpace.call RandomState ev expr rng = Ok (expr, rng).

(** An evaluator with one capability, [uniform], which draws from a counter
    standing for the random state; and a capability-free search space. *)
Definition uniform_only : value -> option (BaseSpace.capability nat) :=
  fun name =>
    if name === PStr "uniform"
    then Some (fun _ rng => Ok (numv half, S rng))
    else None.

Definition plain_space : value :=
  VObj [("layers", VArr [numv (num_of_Z 1); str "relu"; VPrim (PBool true)]);
        ("optimizer", VObj [("rate", numv tenth); ("decay", null)])].

(** ** Vocabulary of the further properties *)

(** A canonical result: an object whose status is one of the five strings
    and which, when the status is OK, carries a loss or an accuracy. *)
Definition canonical_result (r : value) : Prop :=
  (exists props, r = VObj props)
  /\ In (field r "status") (map VPrim STATUS_STRINGS)
  /\ (field r "status" = VPrim STATUS_OK ->
      field r "loss" <> undefined \/ field r "accuracy" <> undefined).

(** A key a store can match: [key === key] holds (it fails for NaN only). *)
Definition matchable (key : prim) : Prop := prim_strict_eq key key = true.

(** All six required fields of a record are present. *)
Definition complete (props : list (string * value)) : Prop :=
  Forall (fun k => ~ absent props k) TRIAL_KEYS.

(** [state] is one of the states asked for. *)
Definition state_among (arg : Trials.states) (t : value) : bool :=
  existsb (fun p => field t "state" === p) (among arg).

(** The reservation list holds 0, 1, ..., n-1 in order. *)
Definition dense (s : Trials.t) : Prop :=
  Trials.ids s = range 0 (Z.of_nat (List.length (Trials.ids s))).

(** The ids of a batch as the numbers the records carry. *)
Definition id_values (ids : list Z) : list value :=
  map (fun id => numv (num_of_Z id)) ids.

(** Every entry an index below [n] reads is defined. *)
Definition defined_upto (n : nat) (l : list value) : Prop :=
  forall i, i < n -> nth i l undefined <> undefined.

(** A trial whose result can be inspected: neither the record nor its
    result is null or undefined. *)
Definition inspectable (t : value) : Prop :=
  readable t /\ readable (field t "result").

(** A comparator that always answers. *)
Definition total_comparator (compare : value -> value -> result bool) : Prop :=
  forall a b, exists c, compare a b = Ok c.

(** A call of the [uniform] capability. *)
Definition uniform_call : value :=
  VObj [("name", str "uniform"); ("low", numv tenth)].


(** ** Vocabulary of the evaluator's statements *)

(** A capability-call node, as the spec defines it: a mapping whose [name]
    key holds the name of a registered sampling capability. *)
Definition capability_call {RandomState : Type}
    (registered : string -> option (BaseSpace.capability RandomState))
    (node : value) : bool :=
  match node with
  | VObj props =>
      match own "name" props with
      | VPrim (PStr name) =>
          match registered name with Some _ => true | None => false end
      | _ => false
      end
  | _ => false
  end.

Definition no_capability_call {RandomState : Type}
    (registered : string -> option (BaseSpace.capability RandomState))
    (expr : value) : bool :=
  forallb (fun node => negb (capability_call registered node)) (nodes expr).

(** A plain node: its name - the value of its [name] key, undefined for
    whatever has none - converts to a property key that names neither a
    registered capability nor one of the function-valued properties every
    evaluator has.  A plain tree has plain nodes only. *)
Definition plain_node {RandomState : Type}
    (ToPropertyKey_runtime : value -> result string)
    (registered : string -> option (BaseSpace.capability RandomState))
    (node : value) : bool :=
  match Instance.ToPropertyKey ToPropertyKey_runtime (BaseSpace.name_of node) with
  | Ok key =>
      match registered key with
      | Some _ => false
      | None => negb (existsb (String.eqb key) Instance.FUNCTION_PROPERTIES)
      end
  | _ => false
  end.

Definition plain {RandomState : Type}
    (ToPropertyKey_runtime : value -> result string)
    (registered : string -> option (BaseSpace.capability RandomState))
    (expr : value) : bool :=
  forallb (plain_node ToPropertyKey_runtime registered) (nodes expr).

(** An evaluator that registers the one capability [uniform], with a
    counter for the random state (a counter has no [rng] property).  The
    trees it is used on name strings only, so the runtime's conversion of
    other names is never consulted. *)
Definition uniform_registry : string -> option (BaseSpace.capability nat) :=
  fun key =>
    if String.eqb key "uniform"
    then Some (fun _ rng => Ok (numv half, S rng))
    else None.

Definition uniform_evaluator (fuel : nat) (expr : value)
    (options : option (option nat)) : result (value * option nat) :=
  Instance.eval nat 0 (fun _ => None) (fun rng _ => rng)
                (fun _ => Ok "[object Object]") uniform_registry
                fuel expr options.

(** A mapping that names the evaluator's own [eval]. *)
Definition names_eval : value :=
  VObj [("name", str "eval"); ("x", numv (num_of_Z 1))].

(* ================================================================== *)
(** * Part II: theorems                                                 *)
(* ================================================================== *)

(** ** Generic facts about values *)

Lemma strict_eq_undefined (v : value) :
  (v === PUndefined) = true <-> v = undefined.
Proof.
  split.
  - destruct v as [[| | b | x | s] | items | props]; cbn; intros H;
      try reflexivity; discriminate H.
  - intros ->. reflexivity.
Qed.

Lemma strict_eq_null (v : value) :
  (v === PNull) = true <-> v = null.
Proof.
  split.
  - destruct v as [[| | b | x | s] | items | props]; cbn; intros H;
      try reflexivity; discriminate H.
  - intros ->. reflexivity.
Qed.

Lemma get_field (v : value) (key : string) :
  is_nullish v = false -> get v key = Ok (field v key).
Proof.
  destruct v as [[| | b | x | s] | items | props]; cbn; congruence.
Qed.

Lemma get_nullish (v : value) (key : string) :
  is_nullish v = true -> get v key = Throw TypeError.
Proof.
  destruct v as [[| | b | x | s] | items | props]; cbn; congruence.
Qed.

Lemma height_wrap (v s : value) (k1 k2 : string) :
  height v < height (VObj [(k1, v); (k2, s)]).
Proof. cbn. lia. Qed.

Lemma not_self_wrapped (v : value) : v <> wrap_loss v.
Proof.
  intros H. pose proof (height_wrap v (VPrim STATUS_OK) "loss" "status") as Hlt.
  unfold wrap_loss in H. rewrite <- H in Hlt. lia.
Qed.

(** ** Domain.evaluate *)

Lemma evaluate_number (d : Domain.t) (args v : value) :
  Domain.fn d args (Domain.params d) = Ok v ->
  typeof_number v && negb (Number_isNaN v) = true ->
  Domain.evaluate d args = Ok (wrap_loss v).
Proof.
  intros Hfn Hnum. unfold Domain.evaluate. rewrite Hfn. cbn.
  rewrite Hnum. reflexivity.
Qed.

(** Outside the number branch the outcome is a throw or the returned value
    itself. *)
Lemma evaluate_structured_shape (d : Domain.t) (args v : value) :
  Domain.fn d args (Domain.params d) = Ok v ->
  typeof_number v && negb (Number_isNaN v) = false ->
  Domain.evaluate d args = Ok v \/ exists e, Domain.evaluate d args = Throw e.
Proof.
  intros Hfn Hnum. unfold Domain.evaluate. rewrite Hfn. cbn.
  rewrite Hnum.
  destruct (v === PUndefined); [right; eauto|].
  destruct (get v "status") as [status | e |] eqn:Hs; cbn; [| right; eauto |].
  2:{ destruct v as [[| | b | x | s] | items | props]; discriminate. }
  destruct (get v "loss") as [loss | e |] eqn:Hl; cbn; [| right; eauto |].
  2:{ destruct v as [[| | b | x | s] | items | props]; discriminate. }
  destruct (get v "accuracy") as [acc | e |] eqn:Ha; cbn; [| right; eauto |].
  2:{ destruct v as [[| | b | x | s] | items | props]; discriminate. }
  repeat match goal with
         | |- context [if ?c then _ else _] => destruct c
         end; eauto.
Qed.

(** C3, as the claim states it, fails: the objective function returns
    [Infinity], which is not finite, and [evaluate] wraps it as
    [{ loss: Infinity, status: 'ok' }]. *)
Lemma C3_infinity_is_wrapped :
  ~ (forall (d : Domain.t) (args v : value),
        Domain.fn d args (Domain.params d) = Ok v ->
        (Domain.evaluate d args = Ok (wrap_loss v)
         <-> is_finite_number v = true)).
Proof.
  intros H.
  specialize (H (returning (numv Infinity)) undefined (numv Infinity) eq_refl).
  destruct H as [H _]. specialize (H eq_refl). discriminate H.
Qed.

(** C3 (amended): [Domain.evaluate] returns [{ loss: v, status: OK }] exactly
    when the objective function's value [v] is a number other than NaN; so
    every finite number and both infinities are wrapped, and NaN goes through
    the structured-result validation, which rejects it with an
    invalid-status error. *)
Theorem C3_evaluate_wraps_non_NaN_numbers (d : Domain.t) (args v : value) :
  Domain.fn d args (Domain.params d) = Ok v ->
  (Domain.evaluate d args = Ok (wrap_loss v)
   <-> typeof_number v && negb (Number_isNaN v) = true)
  /\ (is_finite_number v = true -> Domain.evaluate d args = Ok (wrap_loss v))
  /\ (v = numv Infinity \/ v = numv NegInfinity ->
      Domain.evaluate d args = Ok (wrap_loss v))
  /\ (v = numv NaN ->
      Domain.evaluate d args = Throw (InvalidStatus undefined)).
Proof.
  intros Hfn. repeat split.
  - intros Hev.
    destruct (typeof_number v && negb (Number_isNaN v)) eqn:Hnum; [reflexivity|].
    destruct (evaluate_structured_shape d args v Hfn Hnum) as [Hv | [e He]].
    + rewrite Hv in Hev. injection Hev as Hev. now apply not_self_wrapped in Hev.
    + rewrite He in Hev. discriminate.
  - now apply evaluate_number.
  - intros Hfin. apply evaluate_number; [assumption|].
    destruct v as [[| | b | [s | s | | s m e] | s] | items | props];
      cbn in *; congruence.
  - intros [-> | ->]; now apply evaluate_number.
  - intros ->. unfold Domain.evaluate. rewrite Hfn. reflexivity.
Qed.

(** The spec's scenario: the objective function returns 3.14. *)
Lemma C3_witness :
  Domain.evaluate (returning (numv (num 7070651414971679 (-51)))) undefined
  = Ok (wrap_loss (numv (num 7070651414971679 (-51)))).
Proof.
  apply (proj1 (proj2 (C3_evaluate_wraps_non_NaN_numbers
           (returning (numv (num 7070651414971679 (-51)))) undefined
           (numv (num 7070651414971679 (-51))) eq_refl))).
  reflexivity.
Defined.

(** [===] against a string constant holds for that string only. *)
Lemma strict_eq_str (v : value) (s : string) :
  (v === PStr s) = true <-> v = str s.
Proof.
  split.
  - destruct v as [[| | b | x | s'] | items | props]; cbn; intros H;
      try discriminate H.
    apply String.eqb_eq in H. now subst.
  - intros ->. cbn. apply String.eqb_refl.
Qed.

(** [STATUS_STRINGS.indexOf(status) < 0] says that [status] is none of the
    five recognised strings. *)
Lemma indexOf_status_strings (status : value) :
  (indexOf STATUS_STRINGS status <? 0)%Z = false
  <-> In status (map VPrim STATUS_STRINGS).
Proof.
  unfold indexOf, STATUS_STRINGS. cbn [indexOf_from map In].
  split.
  - intros H.
    repeat match type of H with
           | context [if ?v === PStr ?s then _ else _] =>
               let E := fresh "E" in
               destruct (v === PStr s) eqn:E;
               [apply strict_eq_str in E; subst; cbn; tauto|]
           end.
    discriminate H.
  - intros H.
    repeat (destruct H as [<- | H]; [reflexivity|]). destruct H.
Qed.

(** What the validation of a structured result does on every returned value
    that is neither a number nor null. *)
Lemma evaluate_structured (d : Domain.t) (args v : value) :
  Domain.fn d args (Domain.params d) = Ok v ->
  typeof_number v = false ->
  v <> null ->
  let status := field v "status" in
  let loss := field v "loss" in
  let accuracy := field v "accuracy" in
  Domain.evaluate d args =
    if v === PUndefined then Throw ShouldReturnLoss
    else if negb (existsb (fun p => status === p) STATUS_STRINGS)
    then Throw (InvalidStatus status)
    else if (status === STATUS_OK) && (loss === PUndefined)
            && (accuracy === PUndefined)
    then Throw InvalidLossAndAccuracy
    else Ok v.
Proof.
  intros Hfn Hnum Hnull. unfold Domain.evaluate. rewrite Hfn. cbn [bind].
  rewrite Hnum. cbn [andb].
  destruct (v === PUndefined) eqn:Hu; [reflexivity|].
  assert (Hn : is_nullish v = false).
  { destruct v as [[| | b | x | s] | items | props]; try reflexivity.
    - discriminate Hu.
    - now elim Hnull. }
  rewrite !(get_field v _ Hn). cbn [bind].
  replace (indexOf STATUS_STRINGS (field v "status") <? 0)%Z
    with (negb (existsb (fun p => field v "status" === p) STATUS_STRINGS)).
  - reflexivity.
  - unfold indexOf, STATUS_STRINGS. cbn [indexOf_from existsb].
    repeat match goal with
           | |- context [if ?c then _ else _] => destruct c; [reflexivity|]
           end.
    reflexivity.
Qed.

(** C4: the claim asks for the invalid-return error when the objective
    function returns null; the guard only tests [=== undefined], so null
    reaches the destructuring and the runtime's TypeError is what the caller
    sees.  An undefined return does get the invalid-return error. *)
Theorem C4_null_return_throws_TypeError :
  Domain.evaluate (returning null) undefined = Throw TypeError
  /\ Domain.evaluate (returning null) undefined <> Throw ShouldReturnLoss
  /\ Domain.evaluate (returning undefined) undefined = Throw ShouldReturnLoss.
Proof.
  repeat split. discriminate.
Qed.

(** The spec's scenario [{ status: "bogus" }], and a well-formed result
    coming back unchanged. *)
Example evaluate_bogus_status :
  Domain.evaluate (returning (VObj [("status", str "bogus")])) undefined
  = Throw (InvalidStatus (str "bogus")).
Proof. reflexivity. Qed.

Example evaluate_ok_without_signal :
  Domain.evaluate (returning (VObj [("status", str "ok")])) undefined
  = Throw InvalidLossAndAccuracy.
Proof. reflexivity. Qed.

Example evaluate_fail_result_unchanged :
  Domain.evaluate (returning (VObj [("status", str "fail")])) undefined
  = Ok (VObj [("status", str "fail")]).
Proof. reflexivity. Qed.

(** ** Callbacks that cannot throw *)

Lemma filterM_pure {A} (f : A -> result bool) (g : A -> bool) (l : list A) :
  Forall (fun x => f x = Ok (g x)) l -> filterM f l = Ok (filter g l).
Proof.
  induction 1 as [| x xs Hx _ IH]; [reflexivity|].
  cbn. rewrite Hx, IH. cbn. reflexivity.
Qed.

Lemma mapM_pure {A B} (f : A -> result B) (g : A -> B) (l : list A) :
  Forall (fun x => f x = Ok (g x)) l -> mapM f l = Ok (map g l).
Proof.
  induction 1 as [| x xs Hx _ IH]; [reflexivity|].
  cbn. rewrite Hx, IH. reflexivity.
Qed.

(** ** range and id reservation *)

Lemma range_length (a b : Z) : List.length (range a b) = Z.to_nat (b - a).
Proof. unfold range. now rewrite length_map, length_seq. Qed.

Lemma range_In (a b i : Z) : In i (range a b) <-> (a <= i < b)%Z.
Proof.
  unfold range. rewrite in_map_iff. split.
  - intros (k & <- & Hk). apply in_seq in Hk. lia.
  - intros H. exists (Z.to_nat (i - a)). split; [lia|]. apply in_seq. lia.
Qed.

Lemma newTrialIds_counter (s : Trials.t) (n : Z) :
  (0 <= n)%Z ->
  Z.of_nat (List.length (Trials.ids (snd (Trials.newTrialIds s n))))
  = (Z.of_nat (List.length (Trials.ids s)) + n)%Z.
Proof.
  intros Hn. cbn. rewrite length_app, range_length. lia.
Qed.

(** The side effect the spec flags: under a non-null experiment key
    [refresh] empties the reservation list; under a null key it keeps it. *)
Lemma refresh_ids (s : Trials.t) :
  Forall readable (Trials.dynamicTrials s) ->
  Trials.ids (snd (Trials.refresh s))
  = if VPrim (Trials.expKey s) === PNull then Trials.ids s else [].
Proof.
  intros Hr. unfold Trials.refresh.
  destruct (VPrim (Trials.expKey s) === PNull).
  - erewrite filterM_pure with (g := fun t => field t "state" !== JOB_STATE_ERROR).
    + reflexivity.
    + eapply Forall_impl; [|exact Hr]. intros t Ht. cbn beta.
      now rewrite (get_field t _ Ht).
  - erewrite filterM_pure
      with (g := fun t => (field t "state" !== JOB_STATE_ERROR)
                          && (field t "expKey" === Trials.expKey s)).
    + reflexivity.
    + eapply Forall_impl; [|exact Hr]. intros t Ht. cbn beta.
      rewrite !(get_field t _ Ht). cbn [bind].
      now destruct (field t "state" !== JOB_STATE_ERROR).
Qed.

(** C7: two successive reservations [newTrialIds n] then [newTrialIds m]
    return the contiguous ranges [k, k+n) and [k+n, k+n+m), where [k] is the
    number of ids reserved before; the two ranges are disjoint.  A [refresh]
    in between changes nothing as long as the experiment key is null. *)
Theorem C7_successive_reservations_are_contiguous (s : Trials.t) (n m : Z) :
  (0 < n)%Z -> (0 < m)%Z ->
  let k := Z.of_nat (List.length (Trials.ids s)) in
  let first := Trials.newTrialIds s n in
  let second := Trials.newTrialIds (snd first) m in
  fst first = range k (k + n)
  /\ fst second = range (k + n) (k + n + m)
  /\ (forall i, In i (fst first) <-> (k <= i < k + n)%Z)
  /\ (forall i, In i (fst second) <-> (k + n <= i < k + n + m)%Z)
  /\ (forall i, In i (fst first) -> ~ In i (fst second))
  /\ (Trials.expKey s = PNull ->
      Forall readable (Trials.dynamicTrials s) ->
      fst (Trials.newTrialIds (snd (Trials.refresh (snd first))) m)
      = range (k + n) (k + n + m)).
Proof.
  intros Hn Hm k first second.
  assert (Hsecond : fst second = range (k + n) (k + n + m)).
  { subst second first k. unfold Trials.newTrialIds at 1. cbn [fst].
    rewrite newTrialIds_counter by lia. reflexivity. }
  split; [reflexivity|]. split; [exact Hsecond|].
  split; [intros i; apply range_In|].
  split; [intros i; rewrite Hsecond; apply range_In|].
  split.
  - intros i Hi. rewrite Hsecond. intros Hi'.
    apply range_In in Hi. apply range_In in Hi'. lia.
  - intros Hkey Hr. unfold Trials.newTrialIds at 1. cbn [fst].
    rewrite refresh_ids by exact Hr.
    replace (VPrim (Trials.expKey (snd first)) === PNull) with true
      by (cbn; now rewrite Hkey).
    subst first k. rewrite newTrialIds_counter by lia. reflexivity.
Qed.

Lemma C7_witness :
  fst (Trials.newTrialIds (empty PNull) 2) = [0; 1]%Z
  /\ fst (Trials.newTrialIds (snd (Trials.newTrialIds (empty PNull) 2)) 3)
     = [2; 3; 4]%Z.
Proof.
  pose proof (C7_successive_reservations_are_contiguous (empty PNull) 2 3
                ltac:(lia) ltac:(lia)) as (H1 & H2 & _).
  split; [exact H1 | exact H2].
Defined.

(** ** refresh *)

Lemma refresh_callback_null (t : value) :
  readable t ->
  (state <- get t "state" ;; Ok (state !== JOB_STATE_ERROR))
  = Ok (field t "state" !== JOB_STATE_ERROR).
Proof. intros Ht. now rewrite (get_field t _ Ht). Qed.

Lemma refresh_callback_keyed (key : prim) (t : value) :
  readable t ->
  (state <- get t "state" ;;
   if state !== JOB_STATE_ERROR
   then (k <- get t "expKey" ;; Ok (k === key))
   else Ok false)
  = Ok ((field t "state" !== JOB_STATE_ERROR) && (field t "expKey" === key)).
Proof.
  intros Ht. rewrite !(get_field t _ Ht). cbn [bind].
  now destruct (field t "state" !== JOB_STATE_ERROR).
Qed.

(** C6: after [refresh()] the derived view is exactly the authoritative
    list filtered, in order, by "state is not ERROR and, when the store's
    experiment key is non-null, expKey equals the store's"; the authoritative
    list and the key are untouched, and no ERROR-state record is in the
    view. *)
Theorem C6_refresh_recomputes_view (s : Trials.t) :
  Forall readable (Trials.dynamicTrials s) ->
  exists s',
    Trials.refresh s = (Ok tt, s')
    /\ Trials.trials s' = filter (retained s) (Trials.dynamicTrials s)
    /\ Trials.dynamicTrials s' = Trials.dynamicTrials s
    /\ Trials.expKey s' = Trials.expKey s
    /\ Forall (fun t => (field t "state" === JOB_STATE_ERROR) = false)
              (Trials.trials s').
Proof.
  intros Hr.
  assert (Hview : forall l,
             Forall (fun t => (field t "state" === JOB_STATE_ERROR) = false)
                    (filter (retained s) l)).
  { intros l. apply Forall_forall. intros t Ht. apply filter_In in Ht.
    destruct Ht as [_ Ht]. unfold retained in Ht.
    apply andb_true_iff in Ht. destruct Ht as [Ht _].
    now apply negb_true_iff in Ht. }
  unfold Trials.refresh, retained in *.
  destruct (VPrim (Trials.expKey s) === PNull) eqn:Hkey.
  - rewrite (filterM_pure _ (fun t => field t "state" !== JOB_STATE_ERROR)).
    + eexists. split; [reflexivity|]. cbn.
      assert (Hsame : filter (fun t => (field t "state" !== JOB_STATE_ERROR)
                                       && (true || (field t "expKey" === Trials.expKey s)))
                             (Trials.dynamicTrials s)
                      = filter (fun t => field t "state" !== JOB_STATE_ERROR)
                               (Trials.dynamicTrials s)).
      { apply filter_ext. intros t. cbn. apply andb_true_r. }
      rewrite <- Hsame. repeat split. apply Hview.
    + eapply Forall_impl; [|exact Hr]. intros t. apply refresh_callback_null.
  - rewrite (filterM_pure _ (fun t => (field t "state" !== JOB_STATE_ERROR)
                                      && (field t "expKey" === Trials.expKey s))).
    + eexists. split; [reflexivity|]. cbn. repeat split. apply Hview.
    + eapply Forall_impl; [|exact Hr]. intros t. apply refresh_callback_keyed.
Qed.

(** The spec's scenario: key "A", records with keys "A" and "B". *)
Lemma C6_witness :
  let a := doc 0 Domain.newResult (str "x") JOB_STATE_NEW (PStr "A") in
  let b := doc 1 Domain.newResult (str "y") JOB_STATE_NEW (PStr "B") in
  let e := doc 2 Domain.newResult (str "z") JOB_STATE_ERROR (PStr "A") in
  Trials.trials (snd (Trials.refresh (Trials.mk [] [a; b; e] [] (PStr "A")))) = [a].
Proof.
  intros a b e.
  destruct (C6_refresh_recomputes_view (Trials.mk [] [a; b; e] [] (PStr "A")))
    as (s' & Hrun & Hview & _).
  - repeat constructor.
  - rewrite Hrun. cbn [snd]. rewrite Hview. reflexivity.
Defined.

(** ** Validation and insertion *)

(** [TRIAL_KEYS.find(key => trial[key] === undefined)] on an object returns
    the first absent key. *)
Lemma find_first_absent (props : list (string * value)) (all : list string) :
  forall before key after,
    all = (before ++ key :: after)%list ->
    Forall (fun k => ~ absent props k) before ->
    absent props key ->
    findM (fun k => fld <- get (VObj props) k ;; Ok (fld === PUndefined)) all
    = Ok (Some key).
Proof.
  intros before. revert all.
  induction before as [| k before IH]; intros all key after -> Hpresent Habsent.
  - cbn. unfold absent in Habsent. rewrite Habsent. reflexivity.
  - inversion Hpresent as [| ? ? Hk Hrest]; subst.
    cbn [app findM get bind].
    destruct (own k props === PUndefined) eqn:E.
    + apply strict_eq_undefined in E. contradiction.
    + now apply (IH _ key after).
Qed.

Lemma find_none_absent (props : list (string * value)) (all : list string) :
  Forall (fun k => ~ absent props k) all ->
  findM (fun k => fld <- get (VObj props) k ;; Ok (fld === PUndefined)) all
  = Ok None.
Proof.
  induction 1 as [| k all Hk _ IH]; [reflexivity|].
  cbn [findM get bind].
  destruct (own k props === PUndefined) eqn:E.
  - apply strict_eq_undefined in E. contradiction.
  - exact IH.
Qed.

(** A throw of the validation leaves the store as it was, for one record and
    for a batch. *)
Lemma insertTrialDoc_invalid (s : Trials.t) (trial : value) (e : error) :
  Trials.assertValidTrial s trial = Throw e ->
  Trials.insertTrialDoc s trial = (Throw e, s).
Proof. intros H. unfold Trials.insertTrialDoc. now rewrite H. Qed.

Lemma mapM_first_throw {A B} (f : A -> result B) (before : list A) (x : A)
    (after : list A) (e : error) :
  Forall (fun y => exists b, f y = Ok b) before ->
  f x = Throw e ->
  mapM f (before ++ x :: after)%list = Throw e.
Proof.
  induction 1 as [| y before [b Hy] _ IH]; intros Hx; cbn.
  - now rewrite Hx.
  - rewrite Hy. cbn. now rewrite IH.
Qed.

Lemma insertTrialDocs_invalid (s : Trials.t) (before : list value)
    (trial : value) (after : list value) (e : error) :
  Forall (fun t => exists d, Trials.assertValidTrial s t = Ok d) before ->
  Trials.assertValidTrial s trial = Throw e ->
  Trials.insertTrialDocs s (before ++ trial :: after)%list = (Throw e, s).
Proof.
  intros Hb H. unfold Trials.insertTrialDocs.
  now rewrite (mapM_first_throw _ before trial after e Hb H).
Qed.

Lemma insertTrialDoc_throw_unchanged (s : Trials.t) (trial : value) (e : error) :
  fst (Trials.insertTrialDoc s trial) = Throw e ->
  snd (Trials.insertTrialDoc s trial) = s.
Proof.
  unfold Trials.insertTrialDoc, Trials.internalInsertTrialDocs.
  destruct (Trials.assertValidTrial s trial) as [d | e' |]; cbn; try reflexivity.
  destruct (get d "id") as [i | e' |]; cbn; try reflexivity. discriminate.
Qed.

Lemma insertTrialDocs_throw_unchanged (s : Trials.t) (batch : list value)
    (e : error) :
  fst (Trials.insertTrialDocs s batch) = Throw e ->
  snd (Trials.insertTrialDocs s batch) = s.
Proof.
  unfold Trials.insertTrialDocs, Trials.internalInsertTrialDocs.
  destruct (mapM (Trials.assertValidTrial s) batch) as [ds | e' |]; cbn;
    try reflexivity.
  destruct (mapM (fun d => get d "id") ds) as [i | e' |]; cbn;
    try reflexivity. discriminate.
Qed.

(** C5, as the claim states it, fails: the record [{}] has all six fields
    absent, the first of them [id], yet the insert is refused with 'trial
    should be an object', not with a missing-field error naming [id]. *)
Lemma C5_empty_record_not_missing_field :
  ~ (forall (s : Trials.t) (props : list (string * value))
            (before : list string) (key : string) (after : list string),
        TRIAL_KEYS = (before ++ key :: after)%list ->
        Forall (fun k => ~ absent props k) before ->
        absent props key ->
        fst (Trials.insertTrialDoc s (VObj props)) = Throw (TrialMissingKey key)).
Proof.
  intros H.
  specialize (H (empty PNull) [] [] "id"
                ["result"; "args"; "state"; "book_time"; "refresh_time"]
                eq_refl (Forall_nil _) eq_refl).
  discriminate H.
Qed.

(** C5 (amended): a record with no own property is refused with 'trial
    should be an object'.  For a record with at least one own property, the
    insert fails with the missing-field error naming the first absent field
    of [id, result, args, state, book_time, refresh_time]; when none is
    absent and the record's expKey differs from the store's it fails with
    the expkey-mismatch error.  A batch fails with the error of its first
    invalid record; and whenever [insertTrialDoc] or [insertTrialDocs]
    throws, the store (hence [dynamicTrials]) is left as it was. *)
Theorem C5_insert_rejects_malformed_records
    (s : Trials.t) (props : list (string * value)) :
  (Trials.insertTrialDoc s (VObj []) = (Throw TrialShouldBeObject, s)
   /\ forall earlier later,
        Forall (fun t => exists d, Trials.assertValidTrial s t = Ok d) earlier ->
        Trials.insertTrialDocs s (earlier ++ VObj [] :: later)%list
        = (Throw TrialShouldBeObject, s))
  /\ (props <> [] ->
      (forall before key after,
          TRIAL_KEYS = (before ++ key :: after)%list ->
          Forall (fun k => ~ absent props k) before ->
          absent props key ->
          Trials.insertTrialDoc s (VObj props) = (Throw (TrialMissingKey key), s)
          /\ forall earlier later,
               Forall (fun t => exists d, Trials.assertValidTrial s t = Ok d) earlier ->
               Trials.insertTrialDocs s (earlier ++ VObj props :: later)%list
               = (Throw (TrialMissingKey key), s))
      /\ (Forall (fun k => ~ absent props k) TRIAL_KEYS ->
          (own "expKey" props === Trials.expKey s) = false ->
          let e := WrongTrialExpKey (own "expKey" props) (Trials.expKey s) in
          Trials.insertTrialDoc s (VObj props) = (Throw e, s)
          /\ forall earlier later,
               Forall (fun t => exists d, Trials.assertValidTrial s t = Ok d) earlier ->
               Trials.insertTrialDocs s (earlier ++ VObj props :: later)%list
               = (Throw e, s))
      /\ (forall trial e,
          fst (Trials.insertTrialDoc s trial) = Throw e ->
          Trials.dynamicTrials (snd (Trials.insertTrialDoc s trial))
          = Trials.dynamicTrials s)
      /\ (forall batch e,
          fst (Trials.insertTrialDocs s batch) = Throw e ->
          Trials.dynamicTrials (snd (Trials.insertTrialDocs s batch))
          = Trials.dynamicTrials s)).
Proof.
  split.
  { assert (Hv : Trials.assertValidTrial s (VObj []) = Throw TrialShouldBeObject)
      by reflexivity.
    split.
    - now apply insertTrialDoc_invalid.
    - intros earlier later He. now apply insertTrialDocs_invalid. }
  intros Hne.
  assert (Hlen : (List.length props <=? 0)%nat = false).
  { destruct props; [contradiction | reflexivity]. }
  split; [|split; [|split]].
  - intros before key after Hkeys Hpresent Habsent.
    assert (Hv : Trials.assertValidTrial s (VObj props)
                 = Throw (TrialMissingKey key)).
    { unfold Trials.assertValidTrial. cbn [Trials.keys_length bind].
      rewrite Hlen.
      now rewrite (find_first_absent props TRIAL_KEYS before key after). }
    split.
    + now apply insertTrialDoc_invalid.
    + intros earlier later He. now apply insertTrialDocs_invalid.
  - intros Hpresent Hkey e.
    assert (Hv : Trials.assertValidTrial s (VObj props) = Throw e).
    { unfold Trials.assertValidTrial. cbn [Trials.keys_length bind].
      rewrite Hlen. rewrite (find_none_absent props TRIAL_KEYS Hpresent).
      cbn [bind get]. now rewrite Hkey. }
    split.
    + now apply insertTrialDoc_invalid.
    + intros earlier later He. now apply insertTrialDocs_invalid.
  - intros trial e H. now rewrite (insertTrialDoc_throw_unchanged s trial e H).
  - intros batch e H. now rewrite (insertTrialDocs_throw_unchanged s batch e H).
Qed.

(** The spec's scenario: a record without [result]. *)
Lemma C5_witness :
  Trials.insertTrialDoc (empty PNull)
    (VObj [("id", numv (num_of_Z 0)); ("args", str "x")])
  = (Throw (TrialMissingKey "result"), empty PNull).
Proof.
  apply (proj1 (proj2 (C5_insert_rejects_malformed_records (empty PNull)
                         [("id", numv (num_of_Z 0)); ("args", str "x")])
                      ltac:(discriminate)))
    with (before := ["id"])
         (after := ["args"; "state"; "book_time"; "refresh_time"]).
  - reflexivity.
  - repeat constructor. discriminate.
  - reflexivity.
Defined.

(** ** Counting by state *)

Lemma indexOf_undefined (arr : list prim) :
  ~ In PUndefined arr -> (indexOf arr undefined < 0)%Z.
Proof.
  unfold indexOf. generalize 0%Z at 1.
  induction arr as [| p ps IH]; intros i Hno; cbn; [lia|].
  destruct p; try (apply IH; intros H; apply Hno; now right).
  exfalso. apply Hno. now left.
Qed.

(** A boolean has no [state]: counting over booleans finds nothing unless
    [undefined] is among the states asked for. *)
Lemma count_over_booleans (s : Trials.t) (arg : Trials.states) (bs : list bool) :
  ~ In PUndefined (among arg) ->
  Trials.countByStateSynced s arg (Some (map (fun b => VPrim (PBool b)) bs))
  = Ok 0.
Proof.
  intros Hno. unfold Trials.countByStateSynced.
  fold (among arg).
  rewrite (filterM_pure _ (fun _ => false)).
  - induction bs; [reflexivity | assumption].
  - apply Forall_forall. intros v Hv. apply in_map_iff in Hv.
    destruct Hv as (b & <- & _). cbn [get bind]. f_equal.
    apply Z.leb_gt. now apply indexOf_undefined.
Qed.

Lemma countByStateUnsynced_is_zero (s : Trials.t) (arg : Trials.states) :
  Trials.expKey s <> PNull ->
  Forall readable (Trials.dynamicTrials s) ->
  ~ In PUndefined (among arg) ->
  Trials.countByStateUnsynced s arg = Ok 0.
Proof.
  intros Hkey Hr Hno. unfold Trials.countByStateUnsynced.
  replace (VPrim (Trials.expKey s) !== PNull) with true.
  - rewrite (mapM_pure _ (fun t => VPrim (PBool (field t "expKey" === Trials.expKey s)))).
    + cbn [bind].
      rewrite <- (map_map (fun t => field t "expKey" === Trials.expKey s)
                          (fun b => VPrim (PBool b))).
      now apply count_over_booleans.
    + eapply Forall_impl; [|exact Hr]. intros t Ht. cbn beta.
      now rewrite (get_field t _ Ht).
  - symmetry. apply negb_true_iff.
    destruct (VPrim (Trials.expKey s) === PNull) eqn:E; [|reflexivity].
    apply strict_eq_null in E. injection E as E. contradiction.
Qed.

(** C2: the store has key "A" and one NEW record of experiment "A", so the
    count of NEW records the claim describes is 1; [countByStateUnsynced]
    returns 0, because it maps the records to booleans where it should
    filter them, and a boolean has no state. *)
Theorem C2_countByStateUnsynced_returns_zero :
  Trials.countByStateUnsynced one_new_trial (Trials.One JOB_STATE_NEW) = Ok 0
  /\ count_matching one_new_trial (Trials.One JOB_STATE_NEW) = 1
  /\ Trials.countByStateSynced one_new_trial (Trials.One JOB_STATE_NEW) None
     = Ok 1.
Proof. repeat split. Qed.

(** ** losses *)









(** ** bestTrial *)

Lemma bestTrial_empty (s : Trials.t) (compare : value -> value -> result bool) :
  Trials.trials s = [] -> Trials.bestTrial s compare = Ok undefined.
Proof. intros H. unfold Trials.bestTrial. now rewrite H. Qed.

Lemma argmin_empty otp stn (s : Trials.t) :
  Trials.trials s = [] ->
  Trials.argmin otp stn s = Ok undefined
  /\ Trials.argmax otp stn s = Ok undefined.
Proof.
  intros H. unfold Trials.argmin, Trials.argmax.
  now rewrite !(bestTrial_empty s _ H).
Qed.

(** C1: the claim holds on an empty view, but [best] starts as
    [this.trials[0]] without a look at its status.  With the single FAIL
    record in the view, [bestTrial] returns that record (for every
    comparator) and [argmin]/[argmax] its args, where the claim says
    undefined; with the FAIL record (loss 0.1) ahead of an OK record (loss
    0.5), [bestTrial] still returns the FAIL record, where the claim says a
    record with status OK. *)
Theorem C1_bestTrial_returns_non_OK_record
    (otp : value -> prim) (stn : string -> number)
    (compare : value -> value -> result bool) :
  status_of failed_trial = VPrim STATUS_FAIL
  /\ Trials.bestTrial (viewing [failed_trial]) compare = Ok failed_trial
  /\ Trials.argmin otp stn (viewing [failed_trial]) = Ok (str "a")
  /\ Trials.argmax otp stn (viewing [failed_trial]) = Ok (str "a")
  /\ status_of half_trial = VPrim STATUS_OK
  /\ Trials.bestTrial (viewing [failed_trial; half_trial])
                      (Trials.compare_min otp stn)
     = Ok failed_trial
  /\ Trials.argmin otp stn (viewing [failed_trial; half_trial]) = Ok (str "a")
  /\ Trials.bestTrial (viewing []) compare = Ok undefined.
Proof. repeat split. Qed.

(** ** The order of binary64 numbers *)

Ltac sf_cases :=
  repeat match goal with
         | x : spec_float |- _ => destruct x
         | x : number |- _ => destruct x
         | b : bool |- _ => destruct b
         end;
  cbn in *; try congruence; try reflexivity.

Lemma compare_cont_Eq (p q : positive) :
  Pos.compare_cont Eq p q = (p ?= q)%positive.
Proof. reflexivity. Qed.

Ltac order_cases :=
  repeat match goal with
         | |- context [Z.compare ?a ?b] =>
             destruct (Z.compare_spec a b); subst
         | H : context [Z.compare ?a ?b] |- _ =>
             destruct (Z.compare_spec a b); subst
         | |- context [Pos.compare_cont Eq ?a ?b] =>
             rewrite (compare_cont_Eq a b);
             destruct (Pos.compare_spec a b); subst
         | H : context [Pos.compare_cont Eq ?a ?b] |- _ =>
             rewrite (compare_cont_Eq a b) in H;
             destruct (Pos.compare_spec a b); subst
         end;
  cbn in *; try congruence; try reflexivity; try lia.

Lemma SFleb_refl (x : number) : is_NaN x = false -> SFleb x x = true.
Proof. unfold SFleb. intros ?. sf_cases; order_cases. Qed.

Lemma SFltb_false_leb (x y : number) :
  is_NaN x = false -> is_NaN y = false ->
  SFltb x y = false -> SFleb y x = true.
Proof. unfold SFltb, SFleb. intros Hx Hy. sf_cases; order_cases. Qed.

Lemma SFleb_trans (x y z : number) :
  SFleb x y = true -> SFleb y z = true -> SFleb x z = true.
Proof. unfold SFleb. sf_cases; order_cases. Qed.

Lemma SFltb_leb (x y : number) : SFltb x y = true -> SFleb x y = true.
Proof. unfold SFltb, SFleb. sf_cases; order_cases. Qed.

(** ** Scanning for the best trial *)

Section Scan.
(** One pass of the loop with a body that keeps [best] unless the new
    trial's key is [better]; [no_worse] is the matching non-strict order. *)
Variable P : value -> Prop.
Variable key : value -> number.
Variables better no_worse : number -> number -> bool.
Variable step : value -> value -> result value.

Hypothesis P_proper : forall t, P t -> is_NaN (key t) = false.
Hypothesis step_spec : forall best t, P best -> P t ->
  step best t = Ok (if better (key t) (key best) then t else best).
Hypothesis no_worse_refl : forall x, is_NaN x = false -> no_worse x x = true.
Hypothesis no_worse_trans : forall x y z,
  no_worse x y = true -> no_worse y z = true -> no_worse x z = true.
Hypothesis better_no_worse : forall x y,
  better x y = true -> no_worse x y = true.
Hypothesis not_better : forall x y,
  is_NaN x = false -> is_NaN y = false ->
  better x y = false -> no_worse y x = true.

Lemma scan_best (l : list value) :
  forall best, P best -> Forall P l ->
  exists b,
    foldM step l best = Ok b
    /\ P b /\ (b = best \/ In b l)
    /\ no_worse (key b) (key best) = true
    /\ Forall (fun t => no_worse (key b) (key t) = true) l.
Proof.
  induction l as [| t l IH]; intros best Hbest Hl.
  - exists best. cbn. repeat split; auto.
  - inversion Hl as [| ? ? Ht Hrest]; subst.
    cbn [foldM]. rewrite (step_spec best t Hbest Ht). cbn [bind].
    destruct (better (key t) (key best)) eqn:Hcmp.
    + destruct (IH t Ht Hrest) as (b & Hrun & Hb & Hin & Hle & Hall).
      exists b. repeat split; auto.
      * right. destruct Hin as [-> | Hin]; [now left | now right].
      * eapply no_worse_trans; [exact Hle|]. now apply better_no_worse.
    + destruct (IH best Hbest Hrest) as (b & Hrun & Hb & Hin & Hle & Hall).
      exists b. repeat split; auto.
      * destruct Hin as [-> | Hin]; [now left | right; now right].
      * constructor; [|exact Hall].
        eapply no_worse_trans; [exact Hle|].
        apply not_better; auto.
Qed.
End Scan.

Lemma bestTrial_unfold (s : Trials.t) (compare : value -> value -> result bool) :
  Trials.bestTrial s compare
  = foldM (bestTrial_step compare) (Trials.trials s)
          (hd undefined (Trials.trials s)).
Proof. reflexivity. Qed.

(** A trial whose result has status OK is an object holding an object. *)
Lemma ok_trial_readable (t : value) :
  status_of t = VPrim STATUS_OK ->
  readable t /\ readable (field t "result").
Proof.
  unfold status_of, readable. intros H.
  destruct t as [[| | b | x | s] | items | props]; try discriminate H;
    (split; [reflexivity|]).
  destruct (field (VObj props) "result") as [[| | b | x | s] | items | rprops];
    try discriminate H; reflexivity.
Qed.

Lemma lt_numbers otp stn (x y : number) :
  JS.lt otp stn (numv x) (numv y) = SFltb x y.
Proof. reflexivity. Qed.

Lemma step_min otp stn (best t : value) :
  ok_with_loss best -> ok_with_loss t ->
  bestTrial_step (Trials.compare_min otp stn) best t
  = Ok (if SFltb (number_of (loss_of t)) (number_of (loss_of best))
        then t else best).
Proof.
  intros [Hsb (y & Hy & _)] [Hst (x & Hx & _)].
  destruct (ok_trial_readable best Hsb) as [Hb Hrb].
  destruct (ok_trial_readable t Hst) as [Ht Hrt].
  unfold bestTrial_step, Trials.compare_min.
  rewrite (get_field t _ Ht), (get_field best _ Hb). cbn [bind].
  rewrite !(get_field _ _ Hrt), !(get_field _ _ Hrb). cbn [bind].
  fold (status_of t) (loss_of t) (loss_of best).
  rewrite Hst, Hx, Hy. cbn [strict_eq prim_strict_eq STATUS_OK].
  rewrite String.eqb_refl. cbn [negb bind numv strict_eq prim_strict_eq].
  unfold Trials.lt. fold (numv x) (numv y). rewrite lt_numbers. reflexivity.
Qed.

Lemma step_max otp stn (best t : value) :
  ok_with_accuracy_only best -> ok_with_accuracy_only t ->
  bestTrial_step (Trials.compare_max otp stn) best t
  = Ok (if SFltb (number_of (accuracy_of best)) (number_of (accuracy_of t))
        then t else best).
Proof.
  intros (Hsb & Hlb & y & Hy & _) (Hst & Hlt & x & Hx & _).
  destruct (ok_trial_readable best Hsb) as [Hb Hrb].
  destruct (ok_trial_readable t Hst) as [Ht Hrt].
  unfold bestTrial_step, Trials.compare_max.
  rewrite (get_field t _ Ht), (get_field best _ Hb). cbn [bind].
  rewrite !(get_field _ _ Hrt), !(get_field _ _ Hrb). cbn [bind].
  fold (status_of t) (loss_of t) (accuracy_of t) (accuracy_of best).
  rewrite Hst, Hlt, Hx, Hy. cbn [strict_eq prim_strict_eq STATUS_OK].
  rewrite String.eqb_refl. cbn [negb bind numv strict_eq prim_strict_eq undefined].
  unfold Trials.gt, JS.gt. fold (numv x) (numv y). rewrite lt_numbers.
  reflexivity.
Qed.

Lemma proper_number_of (v : value) :
  proper_number v -> v = numv (number_of v) /\ is_NaN (number_of v) = false.
Proof. intros (x & -> & Hx). now split. Qed.

Lemma num_le_numbers (a b : value) :
  proper_number a -> proper_number b ->
  num_le a b = SFleb (number_of a) (number_of b).
Proof. intros (x & -> & _) (y & -> & _). reflexivity. Qed.

(** [argmin] over a non-empty view of OK trials with proper losses. *)
Lemma argmin_least_loss otp stn (s : Trials.t) :
  Trials.trials s <> [] ->
  Forall ok_with_loss (Trials.trials s) ->
  exists t,
    In t (Trials.trials s)
    /\ Trials.argmin otp stn s = Ok (args_of t)
    /\ Forall (fun t' => num_le (loss_of t) (loss_of t') = true)
              (Trials.trials s).
Proof.
  intros Hne Hall.
  destruct (Trials.trials s) as [| t0 rest] eqn:Hview; [contradiction|].
  assert (H0 : ok_with_loss t0) by now inversion Hall.
  destruct (scan_best ok_with_loss (fun t => number_of (loss_of t))
              SFltb SFleb (bestTrial_step (Trials.compare_min otp stn))
              (fun t Ht => proj2 (proper_number_of _ (proj2 Ht)))
              (step_min otp stn)
              SFleb_refl SFleb_trans SFltb_leb SFltb_false_leb
              (t0 :: rest) t0 H0 Hall)
    as (b & Hrun & Hb & Hin & _ & Hleast).
  exists b. split; [|split].
  - destruct Hin as [-> | Hin]; [now left | exact Hin].
  - unfold Trials.argmin. rewrite bestTrial_unfold, Hview. cbn [hd].
    rewrite Hrun. cbn [bind].
    destruct (ok_trial_readable b (proj1 Hb)) as [Hrb _].
    rewrite (get_field b _ Hrb).
    destruct b as [[| | ? | ? | ?] | ? | ?]; try discriminate Hrb; reflexivity.
  - rewrite Forall_forall in Hall. apply Forall_forall. intros t' Hin'.
    rewrite Forall_forall in Hleast.
    rewrite num_le_numbers; [now apply Hleast | apply Hb | now apply Hall].
Qed.

(** [argmax] over a non-empty view of OK trials without loss and with proper
    accuracies. *)
Lemma argmax_greatest_accuracy otp stn (s : Trials.t) :
  Trials.trials s <> [] ->
  Forall ok_with_accuracy_only (Trials.trials s) ->
  exists t,
    In t (Trials.trials s)
    /\ Trials.argmax otp stn s = Ok (args_of t)
    /\ Forall (fun t' => num_le (accuracy_of t') (accuracy_of t) = true)
              (Trials.trials s).
Proof.
  intros Hne Hall.
  destruct (Trials.trials s) as [| t0 rest] eqn:Hview; [contradiction|].
  assert (H0 : ok_with_accuracy_only t0) by now inversion Hall.
  destruct (scan_best ok_with_accuracy_only (fun t => number_of (accuracy_of t))
              (fun x y => SFltb y x) (fun x y => SFleb y x)
              (bestTrial_step (Trials.compare_max otp stn))
              (fun t Ht => proj2 (proper_number_of _ (proj2 (proj2 Ht))))
              (step_max otp stn)
              SFleb_refl
              (fun x y z Hxy Hyz => SFleb_trans z y x Hyz Hxy)
              (fun x y H => SFltb_leb y x H)
              (fun x y Hx Hy H => SFltb_false_leb y x Hy Hx H)
              (t0 :: rest) t0 H0 Hall)
    as (b & Hrun & Hb & Hin & _ & Hgreatest).
  exists b. split; [|split].
  - destruct Hin as [-> | Hin]; [now left | exact Hin].
  - unfold Trials.argmax. rewrite bestTrial_unfold, Hview. cbn [hd].
    rewrite Hrun. cbn [bind].
    destruct (ok_trial_readable b (proj1 Hb)) as [Hrb _].
    rewrite (get_field b _ Hrb).
    destruct b as [[| | ? | ? | ?] | ? | ?]; try discriminate Hrb; reflexivity.
  - rewrite Forall_forall in Hall. apply Forall_forall. intros t' Hin'.
    rewrite Forall_forall in Hgreatest.
    rewrite num_le_numbers;
      [now apply Hgreatest | now apply Hall | apply Hb].
Qed.

(** C8, as the claim states it, fails: both trials of the view are OK and
    both have a defined loss, NaN for the first and 0.2 for the second;
    nothing compares below NaN, so [best] never leaves the first trial and
    [argmin] is its args, not the args of the loss-0.2 trial. *)
Lemma C8_NaN_loss_shadows_the_minimum :
  ~ (forall (otp : value -> prim) (stn : string -> number) (s : Trials.t),
        Trials.trials s <> [] ->
        Forall (fun t => status_of t = VPrim STATUS_OK
                         /\ loss_of t <> undefined) (Trials.trials s) ->
        exists t,
          In t (Trials.trials s)
          /\ Trials.argmin otp stn s = Ok (args_of t)
          /\ Forall (fun t' => num_le (loss_of t) (loss_of t') = true)
                    (Trials.trials s)).
Proof.
  intros H.
  destruct (H (fun _ => PUndefined) (fun _ => NaN)
              (viewing [nan_trial; fifth_trial]))
    as (t & Hin & Hargs & Hle).
  - discriminate.
  - repeat constructor; discriminate.
  - destruct Hin as [<- | [<- | []]].
    + inversion Hle as [| ? ? Hself _]. discriminate Hself.
    + discriminate Hargs.
Qed.

(** C8 (amended): on a non-empty view holding only OK trials, when every
    loss is a number other than NaN, [argmin] is the args of a trial whose
    loss is at most every loss of the view; when no result has a loss and
    every accuracy is a number other than NaN, [argmax] is the args of a
    trial whose accuracy is at least every accuracy of the view.  In
    particular, after the loss-0.5 and the loss-0.2 trial are inserted and
    the view refreshed, [argmin] is the args of the loss-0.2 trial. *)
Theorem C8_argmin_argmax_are_extremal
    (otp : value -> prim) (stn : string -> number) :
  (forall s : Trials.t,
      Trials.trials s <> [] ->
      Forall ok_with_loss (Trials.trials s) ->
      exists t,
        In t (Trials.trials s)
        /\ Trials.argmin otp stn s = Ok (args_of t)
        /\ Forall (fun t' => num_le (loss_of t) (loss_of t') = true)
                  (Trials.trials s))
  /\ (forall s : Trials.t,
      Trials.trials s <> [] ->
      Forall ok_with_accuracy_only (Trials.trials s) ->
      exists t,
        In t (Trials.trials s)
        /\ Trials.argmax otp stn s = Ok (args_of t)
        /\ Forall (fun t' => num_le (accuracy_of t') (accuracy_of t) = true)
                  (Trials.trials s))
  /\ (Trials.trials two_inserted = [half_trial; fifth_trial]
      /\ Trials.argmin otp stn two_inserted = Ok (args_of fifth_trial)).
Proof.
  split; [|split].
  - intros s. apply argmin_least_loss.
  - intros s. apply argmax_greatest_accuracy.
  - split; reflexivity.
Qed.

Lemma C8_witness :
  Trials.argmin (fun _ => PUndefined) (fun _ => NaN) two_inserted
  = Ok (str "c").
Proof.
  destruct (proj1 (C8_argmin_argmax_are_extremal
                     (fun _ => PUndefined) (fun _ => NaN)) two_inserted)
    as (t & Hin & Hargs & Hle).
  - discriminate.
  - repeat constructor; try reflexivity; eexists; split; reflexivity.
  - destruct Hin as [<- | [<- | []]].
    + inversion Hle as [| ? ? _ Hrest]. inversion Hrest as [| ? ? Hfifth _].
      discriminate Hfifth.
    + exact Hargs.
Defined.

(** The same for accuracies: 0.2, then 0.5, no loss. *)
Example argmax_of_two_accuracies :
  Trials.argmax (fun _ => PUndefined) (fun _ => NaN)
    (viewing [doc 0 (VObj [("status", VPrim STATUS_OK); ("accuracy", numv fifth)])
                  (str "low") JOB_STATE_DONE PNull;
              doc 1 (VObj [("status", VPrim STATUS_OK); ("accuracy", numv half)])
                  (str "high") JOB_STATE_DONE PNull])
  = Ok (str "high").
Proof. reflexivity. Qed.

(** ** The evaluator on trees that do not dispatch *)

Lemma nodupb_NoDup (l : list string) : nodupb l = true -> NoDup l.
Proof.
  induction l as [| x xs IH]; cbn; intros H; constructor.
  - apply andb_true_iff in H. destruct H as [H _].
    apply negb_true_iff in H. intros Hin.
    assert (existsb (String.eqb x) xs = true) as E.
    { apply existsb_exists. exists x. split; [exact Hin | apply String.eqb_refl]. }
    congruence.
  - apply IH. apply andb_true_iff in H. tauto.
Qed.

Lemma own_outside (key : string) (done rest : list (string * value)) :
  ~ In key (keys done) -> own key (done ++ rest) = own key rest.
Proof.
  induction done as [| [k v] done IH]; intros Hno; [reflexivity|].
  cbn. destruct (String.eqb k key) eqn:E.
  - apply String.eqb_eq in E. subst. exfalso. apply Hno. now left.
  - apply IH. intros Hin. apply Hno. now right.
Qed.

Lemma obj_set_fresh (key : string) (v : value) (done : list (string * value)) :
  ~ In key (keys done) -> obj_set done key v = (done ++ [(key, v)])%list.
Proof.
  induction done as [| [k x] done IH]; intros Hno; [reflexivity|].
  cbn. destruct (String.eqb k key) eqn:E.
  - apply String.eqb_eq in E. subst. exfalso. apply Hno. now left.
  - f_equal. apply IH. intros Hin. apply Hno. now right.
Qed.

Lemma height_item (x : value) (items : list value) :
  In x items -> height x < height (VArr items).
Proof.
  cbn. induction items as [| y ys IH]; intros Hin; [destruct Hin|].
  cbn. destruct Hin as [-> | Hin]; [lia|]. specialize (IH Hin). lia.
Qed.

Lemma height_prop (k : string) (v : value) (props : list (string * value)) :
  In (k, v) props -> height v < height (VObj props).
Proof.
  cbn. induction props as [| [k' v'] ps IH]; intros Hin; [destruct Hin|].
  cbn. destruct Hin as [E | Hin]; [injection E as _ ->; lia|].
  specialize (IH Hin). lia.
Qed.

Section EvaluatorFacts.
Variable RandomState : Type.
Variable newRandomState : RandomState.
Variable this : value -> option (BaseSpace.capability RandomState).

Lemma map_eval_unchanged (fuel : nat) (items : list value) (rng : RandomState) :
  Forall (returns_unchanged RandomState (BaseSpace.eval RandomState newRandomState this fuel)) items ->
  BaseSpace.map_eval RandomState (BaseSpace.call RandomState (BaseSpace.eval RandomState newRandomState this fuel))
                     items rng
  = Ok (items, rng).
Proof.
  induction 1 as [| x xs Hx _ IH]; [reflexivity|].
  cbn [BaseSpace.map_eval]. rewrite Hx. cbn [bind]. rewrite IH. reflexivity.
Qed.

Lemma reduce_eval_unchanged (fuel : nat) (props : list (string * value))
    (rng : RandomState) :
  NoDup (keys props) ->
  Forall (fun kv => returns_unchanged RandomState (BaseSpace.eval RandomState newRandomState this fuel) (snd kv)) props ->
  BaseSpace.reduce_eval RandomState (BaseSpace.call RandomState (BaseSpace.eval RandomState newRandomState this fuel))
                        props rng
  = Ok (props, rng).
Proof.
  intros Hnodup Hall. unfold BaseSpace.reduce_eval.
  enough (Hgen : forall todo done,
             props = (done ++ todo)%list ->
             foldM (fun '(r, rng0) key =>
                      '(v, rng1) <- BaseSpace.call RandomState (BaseSpace.eval RandomState newRandomState this fuel)
                                      (own key props) rng0 ;;
                      Ok (obj_set r key v, rng1))
                   (keys todo) (done, rng)
             = Ok (props, rng)).
  { exact (Hgen props [] eq_refl). }
  induction todo as [| [k v] todo IH]; intros done Hsplit.
  - cbn. now rewrite Hsplit, app_nil_r.
  - assert (Hfresh : ~ In k (keys done)).
    { rewrite Hsplit in Hnodup. unfold keys in Hnodup.
      rewrite map_app in Hnodup. cbn in Hnodup.
      apply NoDup_remove_2 in Hnodup. intros Hin. apply Hnodup.
      apply in_or_app. now left. }
    assert (Hown : own k props = v).
    { rewrite Hsplit, own_outside by exact Hfresh. cbn.
      now rewrite String.eqb_refl. }
    assert (Hv : returns_unchanged RandomState (BaseSpace.eval RandomState newRandomState this fuel) v).
    { rewrite Forall_forall in Hall. apply (Hall (k, v)).
      rewrite Hsplit. apply in_or_app. right. now left. }
    cbn [keys map fst foldM]. rewrite Hown, Hv. cbn [bind].
    rewrite obj_set_fresh by exact Hfresh.
    apply IH. rewrite Hsplit, <- app_assoc. reflexivity.
Qed.

(** One step of [eval] at a node it dispatches. *)
Lemma dispatch_step (fuel : nat) (props : list (string * value))
    (rState : option RandomState)
    (space : BaseSpace.capability RandomState) :
  this (own "name" props) = Some space ->
  BaseSpace.eval RandomState newRandomState this (S fuel) (VObj props) rState
  = ('(v, rng') <-
       space (BaseSpace.rest_of (VObj props))
             match rState with
             | Some r => r
             | None => newRandomState
             end ;;
     Ok (v, BaseSpace.leave RandomState rState rng')).
Proof.
  intros Hthis. cbn [BaseSpace.eval strict_eq orb BaseSpace.name_of].
  now rewrite Hthis.
Qed.

Lemma nodes_item (node x : value) (items : list value) :
  In x items -> In node (nodes x) -> In node (nodes (VArr items)).
Proof.
  intros Hx Hnode. cbn [nodes]. right. apply in_flat_map. now exists x.
Qed.

Lemma nodes_prop (node : value) (k : string) (v : value)
    (props : list (string * value)) :
  In (k, v) props -> In node (nodes v) -> In node (nodes (VObj props)).
Proof.
  intros Hkv Hnode. cbn [nodes]. right. apply in_flat_map. now exists (k, v).
Qed.

Lemma nodes_self (expr : value) : In expr (nodes expr).
Proof. destruct expr; now left. Qed.

(** On a tree at none of whose nodes [this[name]] is a function, [eval]
    returns the tree and leaves the random state alone. *)
Lemma eval_without_dispatch (fuel : nat) :
  forall expr rState,
    wf expr = true ->
    (forall node, In node (nodes expr) ->
                  this (BaseSpace.name_of node) = None) ->
    height expr < fuel ->
    BaseSpace.eval RandomState newRandomState this fuel expr rState
    = Ok (expr, rState).
Proof.
  induction fuel as [| fuel IH]; intros expr rState Hwf Hfree Hfuel; [lia|].
  assert (Hleave : BaseSpace.leave RandomState rState
                     match rState with
                     | Some r => r
                     | None => newRandomState
                     end = rState).
  { now destruct rState. }
  assert (Hcall : forall sub,
             wf sub = true ->
             (forall node, In node (nodes sub) ->
                           this (BaseSpace.name_of node) = None) ->
             height sub < fuel ->
             returns_unchanged RandomState
               (BaseSpace.eval RandomState newRandomState this fuel) sub).
  { intros sub Hw Hf Hh rng. unfold BaseSpace.call.
    now rewrite (IH sub (Some rng) Hw Hf Hh). }
  cbn [BaseSpace.eval].
  destruct ((expr === PUndefined) || (expr === PNull)); [reflexivity|].
  rewrite (Hfree expr (nodes_self expr)).
  destruct expr as [p | items | props].
  - now rewrite Hleave.
  - rewrite map_eval_unchanged.
    + cbn [bind]. now rewrite Hleave.
    + apply Forall_forall. intros x Hin. apply Hcall.
      * cbn [wf] in Hwf. rewrite forallb_forall in Hwf. now apply Hwf.
      * intros node Hnode. apply Hfree. now apply (nodes_item node x items).
      * pose proof (height_item x items Hin). lia.
  - cbn [wf] in Hwf. apply andb_true_iff in Hwf. destruct Hwf as [Hkeys Hwf].
    rewrite reduce_eval_unchanged.
    + cbn [bind]. now rewrite Hleave.
    + now apply nodupb_NoDup.
    + apply Forall_forall. intros [k v] Hin. apply Hcall.
      * rewrite forallb_forall in Hwf. now apply (Hwf (k, v)).
      * intros node Hnode. apply Hfree. now apply (nodes_prop node k v props).
      * pose proof (height_prop k v props Hin). cbn [snd]. lia.
Qed.
End EvaluatorFacts.

Section InstanceFacts.
Variable RandomState : Type.
Variable newRandomState : RandomState.
Variable rng_field : RandomState -> option RandomState.
Variable with_rng_field : RandomState -> RandomState -> RandomState.
Variable ToPropertyKey_runtime : value -> result string.
Variable registered : string -> option (BaseSpace.capability RandomState).

(** On an instance, [this[name]] is no function exactly for the names of
    plain nodes. *)
Lemma this_plain_node (depth : nat) (node : value) :
  Instance.this RandomState newRandomState rng_field with_rng_field
                ToPropertyKey_runtime registered depth
                (BaseSpace.name_of node) = None
  <-> plain_node ToPropertyKey_runtime registered node = true.
Proof.
  unfold plain_node.
  destruct depth as [| depth]; cbn [Instance.this];
    destruct (Instance.ToPropertyKey ToPropertyKey_runtime
                                     (BaseSpace.name_of node))
      as [key | e |]; try (split; discriminate);
    destruct (registered key); try (split; discriminate);
    unfold Instance.FUNCTION_PROPERTIES, Instance.inherited;
    cbn [existsb];
    destruct (String.eqb key "eval"); cbn [orb negb];
      try (split; discriminate);
    destruct (String.eqb key "toString"); cbn [orb negb];
      try (rewrite orb_true_r; split; discriminate);
    destruct (String.eqb key "constructor"); cbn [orb negb];
      try (split; discriminate);
    destruct (existsb (String.eqb key) Instance.OBJECT_PROTOTYPE_NEEDS_THIS);
    cbn [negb]; split; (reflexivity || discriminate).
Qed.

(** C9 (amended): on an evaluator instance, [eval] called with an options
    object returns null and undefined unchanged (called without one it
    throws a TypeError, before it looks at the expression); and it returns a
    tree of scalars, arrays and objects without duplicate keys unchanged -
    same scalars, same array lengths and order, same keys in the same order,
    the caller's random state untouched - when the tree is plain: no node's
    name (the value of a mapping's [name] key, undefined for any other node),
    converted to a property key, names a registered capability or one of the
    function-valued properties every evaluator has ([eval], [constructor],
    the methods of Object.prototype).  The fuel has to exceed the height of
    the tree. *)
Theorem C9_eval_is_identity_on_plain_trees :
  (forall fuel rState,
      Instance.eval RandomState newRandomState rng_field with_rng_field
                    ToPropertyKey_runtime registered
                    (S fuel) undefined (Some rState)
      = Ok (undefined, rState)
      /\ Instance.eval RandomState newRandomState rng_field with_rng_field
                       ToPropertyKey_runtime registered
                       (S fuel) null (Some rState)
         = Ok (null, rState))
  /\ (forall fuel expr,
      Instance.eval RandomState newRandomState rng_field with_rng_field
                    ToPropertyKey_runtime registered fuel expr None
      = Throw TypeError)
  /\ (forall expr fuel rState,
      wf expr = true ->
      plain ToPropertyKey_runtime registered expr = true ->
      height expr < fuel ->
      Instance.eval RandomState newRandomState rng_field with_rng_field
                    ToPropertyKey_runtime registered fuel expr (Some rState)
      = Ok (expr, rState)).
Proof.
  split; [|split].
  - intros fuel rState. split; reflexivity.
  - reflexivity.
  - intros expr fuel rState Hwf Hplain Hfuel. unfold Instance.eval.
    apply eval_without_dispatch; [exact Hwf | | exact Hfuel].
    intros node Hnode. apply this_plain_node.
    unfold plain in Hplain. rewrite forallb_forall in Hplain.
    now apply Hplain.
Qed.

Lemma this_eval_entry (depth : nat) :
  registered "eval" = None ->
  Instance.this RandomState newRandomState rng_field with_rng_field
                ToPropertyKey_runtime registered (S depth) (str "eval")
  = Some (Instance.as_capability RandomState rng_field with_rng_field
            (BaseSpace.eval RandomState newRandomState
               (Instance.this RandomState newRandomState rng_field
                              with_rng_field ToPropertyKey_runtime registered
                              depth)
               depth)).
Proof.
  intros Heval. cbn [Instance.this Instance.ToPropertyKey str].
  now rewrite Heval.
Qed.

(** A mapping that names [eval] is evaluated by [eval] itself: the [name]
    key is dropped and the rest comes back, on every evaluator that does
    not register a capability under [eval] or [undefined], whatever its
    random state and runtime. *)
Lemma eval_strips_its_own_name (fuel : nat) (rState : option RandomState) :
  registered "eval" = None ->
  registered "undefined" = None ->
  exists after,
    Instance.eval RandomState newRandomState rng_field with_rng_field
                  ToPropertyKey_runtime registered
                  (S (S (S fuel))) names_eval (Some rState)
    = Ok (VObj [("x", numv (num_of_Z 1))], after).
Proof.
  intros Heval Hundef. unfold Instance.eval, names_eval.
  rewrite (dispatch_step RandomState newRandomState _ (S (S fuel))
             [("name", str "eval"); ("x", numv (num_of_Z 1))] rState _
             (this_eval_entry (S (S fuel)) Heval)).
  unfold Instance.as_capability.
  rewrite eval_without_dispatch.
  - cbn [bind]. eexists. reflexivity.
  - reflexivity.
  - intros node Hnode. apply this_plain_node. unfold plain_node.
    destruct Hnode as [<- | [<- | []]];
      cbn [BaseSpace.name_of own BaseSpace.rest_of filter fst String.eqb
           Ascii.eqb Bool.eqb negb Instance.ToPropertyKey undefined numv];
      now rewrite Hundef.
  - cbn. lia.
Qed.
End InstanceFacts.

(** C9, as the claim states it, fails: the mapping [{ name: 'eval', x: 1 }]
    contains no capability-call node - the evaluator registers [uniform]
    only - yet [this['eval']] is a function, the evaluator's own method, so
    [eval] dispatches to it and returns [{ x: 1 }], not the mapping. *)
Lemma C9_own_eval_is_dispatched :
  ~ (forall (fuel : nat) (expr : value) (rState : option nat),
        wf expr = true ->
        no_capability_call uniform_registry expr = true ->
        height expr < fuel ->
        uniform_evaluator fuel expr (Some rState) = Ok (expr, rState)).
Proof.
  intros H. specialize (H 3 names_eval (Some 7) eq_refl eq_refl).
  assert (Hrun : uniform_evaluator 3 names_eval (Some (Some 7))
                 = Ok (VObj [("x", numv (num_of_Z 1))], Some 7))
    by reflexivity.
  rewrite H in Hrun by (cbn; lia). discriminate Hrun.
Qed.

Lemma C9_witness :
  uniform_evaluator 3 plain_space (Some (Some 7)) = Ok (plain_space, Some 7).
Proof.
  apply (proj2 (proj2 (C9_eval_is_identity_on_plain_trees
                         nat 0 (fun _ => None) (fun rng _ => rng)
                         (fun _ => Ok "[object Object]") uniform_registry))).
  - reflexivity.
  - reflexivity.
  - cbn. lia.
Defined.

(** The other properties every evaluator has: a mapping that names
    [toString] evaluates to what Object.prototype.toString answers for
    undefined, one that names [constructor] throws, and a registered
    capability is called. *)
Example eval_inherited_names :
  uniform_evaluator 3 (VObj [("name", str "toString")]) (Some (Some 7))
  = Ok (str "[object Undefined]", Some 7)
  /\ uniform_evaluator 3 (VObj [("name", str "constructor")]) (Some (Some 7))
     = Throw TypeError
  /\ uniform_evaluator 3 (VObj [("rate", uniform_call)]) (Some (Some 7))
     = Ok (VObj [("rate", numv half)], Some 8).
Proof. repeat split. Qed.

(** With a capability in the tree the evaluator is no identity: the node is
    replaced by the draw and the random state advances. *)
Example eval_dispatches_capability :
  BaseSpace.eval nat 0 uniform_only 3
    (VObj [("rate", VObj [("name", str "uniform"); ("low", numv tenth)])])
    (Some 7)
  = Ok (VObj [("rate", numv half)], Some 8).
Proof. reflexivity. Qed.

(** ** Stores built through the store's own methods *)

(** Only objects, strings and arrays get past the first guard of the
    validation, and of those only objects can have all six fields; whatever
    is accepted is returned as it is and is readable. *)
Lemma assertValidTrial_accepts (s : Trials.t) (trial d : value) :
  Trials.assertValidTrial s trial = Ok d -> d = trial /\ readable trial.
Proof.
  unfold Trials.assertValidTrial, readable. intros H.
  destruct trial as [[| | b | x | str_] | items | props]; try discriminate H;
    (split; [|reflexivity]); cbn [Trials.keys_length bind] in H.
  - destruct (String.length str_ <=? 0)%nat; discriminate H.
  - destruct (List.length items <=? 0)%nat; discriminate H.
  - destruct (List.length props <=? 0)%nat; [discriminate H|].
    destruct (findM _ TRIAL_KEYS) as [[k |] | e |]; try discriminate H.
    cbn [bind get] in H.
    destruct (own "expKey" props !== Trials.expKey s); [discriminate H|].
    now injection H as <-.
Qed.

Lemma new_readable (key : prim) (do_refresh : bool) :
  Forall readable (Trials.dynamicTrials (Trials.new key do_refresh)).
Proof.
  unfold Trials.new, Trials.refresh.
  destruct do_refresh; [|constructor].
  cbn [Trials.expKey]. destruct (VPrim key === PNull); cbn; constructor.
Qed.

Lemma insertTrialDoc_readable (s : Trials.t) (trial : value) :
  Forall readable (Trials.dynamicTrials s) ->
  Forall readable (Trials.dynamicTrials (snd (Trials.insertTrialDoc s trial))).
Proof.
  intros Hs. unfold Trials.insertTrialDoc.
  destruct (Trials.assertValidTrial s trial) as [d | e |] eqn:Hv;
    cbn [Trials.on_ok snd]; try exact Hs.
  apply assertValidTrial_accepts in Hv. destruct Hv as [-> Hr].
  unfold Trials.internalInsertTrialDocs. cbn [mapM].
  rewrite (get_field trial _ Hr). cbn.
  apply Forall_app. split; [exact Hs | now constructor].
Qed.

(* ================================================================== *)
(** * Part III: further properties of the code                          *)
(* ================================================================== *)

(** ** Domain.evaluate: what it can return *)

(** Whatever [evaluate] returns went through the number branch or passed
    both checks of the validation. *)
Lemma evaluate_ok_inv (d : Domain.t) (args r : value) :
  Domain.evaluate d args = Ok r ->
  exists props,
    r = VObj props
    /\ (indexOf STATUS_STRINGS (own "status" props) <? 0)%Z = false
    /\ (own "status" props === STATUS_OK) && (own "loss" props === PUndefined)
       && (own "accuracy" props === PUndefined) = false.
Proof.
  unfold Domain.evaluate.
  destruct (Domain.fn d args (Domain.params d)) as [v | e |]; cbn [bind];
    try discriminate.
  destruct (typeof_number v && negb (Number_isNaN v)) eqn:Hnum.
  - intros H. injection H as <-. eexists. split; [reflexivity|].
    destruct v as [[| | b | x | s] | items | props]; try discriminate Hnum.
    split; reflexivity.
  - destruct (v === PUndefined); [discriminate|].
    destruct v as [[| | b | x | s] | items | props]; cbn [get bind];
      try discriminate;
      try (destruct (indexOf STATUS_STRINGS undefined <? 0)%Z eqn:E;
           [discriminate | discriminate E]).
    destruct (indexOf STATUS_STRINGS (own "status" props) <? 0)%Z eqn:Hs;
      [discriminate|].
    destruct ((own "status" props === STATUS_OK)
              && (own "loss" props === PUndefined)
              && (own "accuracy" props === PUndefined)) eqn:Hsig;
      [discriminate|].
    intros H. injection H as <-. exists props. now repeat split.
Qed.

Lemma not_undefined (v : value) : (v === PUndefined) = false -> v <> undefined.
Proof. intros H ->. discriminate H. Qed.

(** X1: every value [Domain.evaluate] returns is a canonical result: an
    object with a recognised status which, when the status is OK, has a loss
    or an accuracy - whatever the objective function returned. *)
Theorem evaluate_returns_canonical_result (d : Domain.t) (args r : value) :
  Domain.evaluate d args = Ok r -> canonical_result r.
Proof.
  intros H. apply evaluate_ok_inv in H.
  destruct H as (props & -> & Hstatus & Hsignal).
  split; [now exists props|]. split.
  - now apply indexOf_status_strings.
  - cbn [field]. intros Hok. rewrite Hok in Hsignal.
    cbn [strict_eq prim_strict_eq STATUS_OK andb] in Hsignal.
    rewrite String.eqb_refl in Hsignal. cbn [andb] in Hsignal.
    apply andb_false_iff in Hsignal.
    destruct Hsignal as [Hl | Ha]; [left | right]; now apply not_undefined.
Qed.

Lemma evaluate_returns_canonical_result_witness :
  canonical_result (wrap_loss (numv half)).
Proof.
  apply (evaluate_returns_canonical_result
           (returning (numv half)) undefined (wrap_loss (numv half))).
  reflexivity.
Defined.

(** X2: a result [evaluate] returned is a fixed point of the adapter: an
    objective function that returns it gets it back unchanged (a number is
    wrapped once, a result is never wrapped again). *)
Theorem evaluate_fixes_its_results (d : Domain.t) (args r : value) :
  Domain.evaluate d args = Ok r ->
  forall (d' : Domain.t) (args' : value),
    Domain.fn d' args' (Domain.params d') = Ok r ->
    Domain.evaluate d' args' = Ok r.
Proof.
  intros H d' args' Hfn. apply evaluate_ok_inv in H.
  destruct H as (props & -> & Hstatus & Hsignal).
  unfold Domain.evaluate. rewrite Hfn. cbn [bind typeof_number andb get].
  cbn [strict_eq]. now rewrite Hstatus, Hsignal.
Qed.

Lemma evaluate_fixes_its_results_witness :
  Domain.evaluate (returning (wrap_loss (numv half))) null
  = Ok (wrap_loss (numv half)).
Proof.
  apply (evaluate_fixes_its_results
           (returning (numv half)) undefined (wrap_loss (numv half)) eq_refl
           (returning (wrap_loss (numv half))) null).
  reflexivity.
Defined.

(** ** Insertion: what is accepted and what it does *)

Lemma find_none_present (props : list (string * value)) (all : list string) :
  findM (fun k => fld <- get (VObj props) k ;; Ok (fld === PUndefined)) all
  = Ok None ->
  Forall (fun k => ~ absent props k) all.
Proof.
  induction all as [| k all IH]; intros H; constructor.
  - cbn [findM get bind] in H. unfold absent. intros Habs.
    rewrite Habs in H. discriminate H.
  - apply IH. cbn [findM get bind] in H.
    destruct (own k props === PUndefined); [discriminate H | exact H].
Qed.

Lemma assertValidTrial_complete (s : Trials.t) (props : list (string * value)) :
  complete props ->
  (own "expKey" props === Trials.expKey s) = true ->
  Trials.assertValidTrial s (VObj props) = Ok (VObj props).
Proof.
  intros Hc Hkey. unfold Trials.assertValidTrial. cbn [Trials.keys_length bind].
  destruct props as [| kv props'] eqn:E.
  - inversion Hc as [| ? ? Hid _]. now elim Hid.
  - cbn [List.length Nat.leb]. rewrite <- E in *.
    rewrite (find_none_absent props TRIAL_KEYS Hc). cbn [bind get].
    now rewrite Hkey.
Qed.

Lemma assertValidTrial_ok_inv (s : Trials.t) (trial d : value) :
  Trials.assertValidTrial s trial = Ok d ->
  exists props,
    trial = VObj props /\ d = trial /\ complete props
    /\ (own "expKey" props === Trials.expKey s) = true.
Proof.
  unfold Trials.assertValidTrial. intros H.
  destruct trial as [[| | b | x | str_] | items | props]; try discriminate H;
    cbn [Trials.keys_length bind] in H.
  - destruct (String.length str_ <=? 0)%nat; discriminate H.
  - destruct (List.length items <=? 0)%nat; discriminate H.
  - destruct (List.length props <=? 0)%nat; [discriminate H|].
    destruct (findM _ TRIAL_KEYS) as [[k |] | e |] eqn:Hfind;
      try discriminate H.
    cbn [bind get] in H.
    destruct (own "expKey" props === Trials.expKey s) eqn:Hkey;
      [|discriminate H].
    injection H as <-. exists props.
    split; [reflexivity|]. split; [reflexivity|].
    split; [now apply find_none_present | exact Hkey].
Qed.

(** X3: [insertTrialDoc] succeeds exactly on an object that has the six
    required fields and the store's experiment key.  It then returns the
    record's id and appends the record, as it is, to the authoritative
    list; the derived view and the reserved ids are not touched, so the new
    record is not visible to the queries before the next [refresh]. *)
Theorem insertTrialDoc_accepts_exactly (s : Trials.t) (trial : value) :
  (forall props,
      trial = VObj props ->
      complete props ->
      (own "expKey" props === Trials.expKey s) = true ->
      Trials.insertTrialDoc s trial
      = (Ok (own "id" props),
         Trials.mk (Trials.ids s) (Trials.dynamicTrials s ++ [trial])
                   (Trials.trials s) (Trials.expKey s)))
  /\ (forall id s',
      Trials.insertTrialDoc s trial = (Ok id, s') ->
      exists props,
        trial = VObj props /\ complete props
        /\ (own "expKey" props === Trials.expKey s) = true
        /\ id = own "id" props
        /\ Trials.dynamicTrials s' = (Trials.dynamicTrials s ++ [trial])%list
        /\ Trials.trials s' = Trials.trials s
        /\ Trials.ids s' = Trials.ids s).
Proof.
  assert (Hrun : forall props, trial = VObj props -> complete props ->
             (own "expKey" props === Trials.expKey s) = true ->
             Trials.insertTrialDoc s trial
             = (Ok (own "id" props),
                Trials.mk (Trials.ids s) (Trials.dynamicTrials s ++ [trial])
                          (Trials.trials s) (Trials.expKey s))).
  { intros props -> Hc Hkey. unfold Trials.insertTrialDoc.
    now rewrite (assertValidTrial_complete s props Hc Hkey). }
  split; [exact Hrun|].
  intros id s' H.
  destruct (Trials.assertValidTrial s trial) as [d | e |] eqn:Hv.
  - destruct (assertValidTrial_ok_inv s trial d Hv) as (props & Ht & _ & Hc & Hkey).
    rewrite (Hrun props Ht Hc Hkey) in H. injection H as <- <-.
    exists props. now repeat split.
  - rewrite (insertTrialDoc_invalid s trial e Hv) in H. discriminate H.
  - unfold Trials.insertTrialDoc in H. rewrite Hv in H. discriminate H.
Qed.

Lemma insertTrialDoc_accepts_exactly_witness :
  Trials.insertTrialDoc (empty PNull) half_trial
  = (Ok (numv (num_of_Z 1)), Trials.mk [] [half_trial] [] PNull).
Proof.
  apply (proj1 (insertTrialDoc_accepts_exactly (empty PNull) half_trial)
           [("state", VPrim JOB_STATE_DONE);
            ("id", numv (num_of_Z 1));
            ("result", result_of STATUS_OK half);
            ("args", str "b");
            ("expKey", VPrim PNull);
            ("book_time", null);
            ("refresh_time", null)]).
  - reflexivity.
  - repeat constructor; discriminate.
  - reflexivity.
Defined.

(** ** refresh, composed with the other methods *)

Lemma retained_null (s : Trials.t) :
  (VPrim (Trials.expKey s) === PNull) = true ->
  forall l, filter (retained s) l
            = filter (fun t => field t "state" !== JOB_STATE_ERROR) l.
Proof.
  intros Hkey l. apply filter_ext. intros t. unfold retained.
  rewrite Hkey. cbn [orb]. apply andb_true_r.
Qed.

Lemma retained_keyed (s : Trials.t) :
  (VPrim (Trials.expKey s) === PNull) = false ->
  forall l, filter (retained s) l
            = filter (fun t => (field t "state" !== JOB_STATE_ERROR)
                               && (field t "expKey" === Trials.expKey s)) l.
Proof.
  intros Hkey l. apply filter_ext. intros t. unfold retained.
  now rewrite Hkey.
Qed.

(** [refresh] on a store whose records can be read: it cannot throw, and the
    store it leaves is known field by field. *)
Lemma refresh_runs (s : Trials.t) :
  Forall readable (Trials.dynamicTrials s) ->
  Trials.refresh s
  = (Ok tt,
     Trials.mk (if VPrim (Trials.expKey s) === PNull then Trials.ids s else [])
               (Trials.dynamicTrials s)
               (filter (retained s) (Trials.dynamicTrials s))
               (Trials.expKey s)).
Proof.
  intros Hr. unfold Trials.refresh.
  destruct (VPrim (Trials.expKey s) === PNull) eqn:Hkey.
  - rewrite (retained_null s Hkey).
    rewrite (filterM_pure _ (fun t => field t "state" !== JOB_STATE_ERROR));
      [reflexivity|].
    eapply Forall_impl; [|exact Hr]. intros t. apply refresh_callback_null.
  - rewrite (retained_keyed s Hkey).
    rewrite (filterM_pure _ (fun t => (field t "state" !== JOB_STATE_ERROR)
                                      && (field t "expKey" === Trials.expKey s)));
      [reflexivity|].
    eapply Forall_impl; [|exact Hr]. intros t. apply refresh_callback_keyed.
Qed.

(** X4: a record that [insertTrialDoc] accepted and whose state is not ERROR
    is in the derived view after the next [refresh]; until then the view is
    the one from before the insertion. *)
Theorem inserted_trial_visible_after_refresh
    (s s' : Trials.t) (trial id : value) :
  Forall readable (Trials.dynamicTrials s) ->
  Trials.insertTrialDoc s trial = (Ok id, s') ->
  (field trial "state" === JOB_STATE_ERROR) = false ->
  Trials.trials s' = Trials.trials s
  /\ fst (Trials.refresh s') = Ok tt
  /\ In trial (Trials.trials (snd (Trials.refresh s'))).
Proof.
  intros Hr Hins Hstate.
  pose proof (insertTrialDoc_readable s trial Hr) as Hr'.
  rewrite Hins in Hr'. cbn [snd] in Hr'.
  unfold Trials.insertTrialDoc in Hins.
  destruct (Trials.assertValidTrial s trial) as [d | e |] eqn:Hv;
    try discriminate Hins.
  destruct (assertValidTrial_ok_inv s trial d Hv) as (props & -> & -> & Hc & Hkey).
  cbn in Hins. injection Hins as _ <-.
  split; [reflexivity|].
  rewrite (refresh_runs _ Hr'). cbn [fst snd Trials.trials Trials.dynamicTrials].
  split; [reflexivity|].
  apply filter_In. split.
  - apply in_or_app. right. now left.
  - unfold retained. cbn [Trials.expKey field] in *. rewrite Hstate, Hkey.
    cbn. apply orb_true_r.
Qed.

Lemma inserted_trial_visible_after_refresh_witness :
  In half_trial
     (Trials.trials
        (snd (Trials.refresh (Trials.mk [] [half_trial] [] PNull)))).
Proof.
  apply (inserted_trial_visible_after_refresh
           (empty PNull) (Trials.mk [] [half_trial] [] PNull)
           half_trial (numv (num_of_Z 1))).
  - constructor.
  - reflexivity.
  - reflexivity.
Defined.

(** X5: [refresh] is idempotent: a second [refresh] right after the first
    leaves the store exactly as the first left it. *)
Theorem refresh_idempotent (s : Trials.t) :
  Forall readable (Trials.dynamicTrials s) ->
  Trials.refresh (snd (Trials.refresh s)) = (Ok tt, snd (Trials.refresh s)).
Proof.
  intros Hr. rewrite (refresh_runs s Hr). cbn [snd].
  rewrite refresh_runs by exact Hr.
  cbn [Trials.expKey Trials.ids Trials.dynamicTrials]. f_equal. f_equal.
  now destruct (VPrim (Trials.expKey s) === PNull).
Qed.

Lemma refresh_idempotent_witness :
  Trials.refresh
    (snd (Trials.refresh (Trials.mk [0%Z] [half_trial; failed_trial] [] PNull)))
  = (Ok tt,
     snd (Trials.refresh (Trials.mk [0%Z] [half_trial; failed_trial] [] PNull))).
Proof.
  apply (refresh_idempotent (Trials.mk [0%Z] [half_trial; failed_trial] [] PNull)).
  repeat constructor.
Defined.

(** X6: under a non-null experiment key [refresh] forgets the reserved ids,
    so the next reservation starts again at 0 whatever was reserved before:
    an id handed out before the refresh is handed out a second time. *)
Theorem refresh_restarts_ids_under_key (s : Trials.t) (n m : Z) :
  (VPrim (Trials.expKey s) === PNull) = false ->
  Forall readable (Trials.dynamicTrials s) ->
  (0 < n)%Z -> (0 < m)%Z ->
  let first := Trials.newTrialIds s n in
  let second := Trials.newTrialIds (snd (Trials.refresh (snd first))) m in
  fst second = range 0 m
  /\ In 0%Z (fst second)
  /\ (Trials.ids s = [] -> In 0%Z (fst first)).
Proof.
  intros Hkey Hr Hn Hm first second.
  assert (Hsecond : fst second = range 0 m).
  { subst second first. rewrite refresh_runs by exact Hr.
    cbn [snd Trials.newTrialIds Trials.expKey fst Trials.ids].
    rewrite Hkey. reflexivity. }
  split; [exact Hsecond|]. split.
  - rewrite Hsecond. apply range_In. lia.
  - intros Hids. subst first. cbn [fst Trials.newTrialIds].
    rewrite Hids. apply range_In. cbn. lia.
Qed.

Lemma refresh_restarts_ids_under_key_witness :
  fst (Trials.newTrialIds
         (snd (Trials.refresh (snd (Trials.newTrialIds (empty (PStr "A")) 2))))
         3)
  = [0; 1; 2]%Z.
Proof.
  apply (refresh_restarts_ids_under_key (empty (PStr "A")) 2 3).
  - reflexivity.
  - constructor.
  - lia.
  - lia.
Defined.

(** ** Id reservation *)

Lemma seq_from (a : Z) (m : nat) :
  forall n,
    map (fun k => (Z.of_nat k + a)%Z) (seq n m)
    = map (fun k => (Z.of_nat k + (a + Z.of_nat n))%Z) (seq 0 m).
Proof.
  induction m as [| m IH]; intros n; [reflexivity|].
  cbn [seq map]. f_equal; [lia|].
  rewrite IH, <- (seq_shift m 0), map_map.
  apply map_ext. intros k. lia.
Qed.

Lemma range_app (a b c : Z) :
  (a <= b <= c)%Z -> (range a b ++ range b c)%list = range a c.
Proof.
  intros H. unfold range.
  replace (Z.to_nat (c - a)) with (Z.to_nat (b - a) + Z.to_nat (c - b)) by lia.
  rewrite seq_app, map_app. f_equal. cbn [Nat.add].
  rewrite (seq_from a _ (Z.to_nat (b - a))). apply map_ext. intros k. lia.
Qed.

Lemma range_empty (a b : Z) : (b <= a)%Z -> range a b = [].
Proof.
  intros H. unfold range. now replace (Z.to_nat (b - a)) with 0 by lia.
Qed.

Lemma range_NoDup (a b : Z) : NoDup (range a b).
Proof.
  unfold range. generalize (seq_NoDup (Z.to_nat (b - a)) 0).
  induction 1 as [| k ks Hk _ IH]; cbn [map]; constructor; [|exact IH].
  intros Hin. apply in_map_iff in Hin. destruct Hin as (j & Hj & Hin).
  assert (j = k) by lia. now subst.
Qed.

Lemma refresh_ids_cases (s : Trials.t) :
  Trials.ids (snd (Trials.refresh s)) = Trials.ids s
  \/ Trials.ids (snd (Trials.refresh s)) = [].
Proof.
  unfold Trials.refresh.
  destruct (VPrim (Trials.expKey s) === PNull);
    match goal with
    | |- context [filterM ?f ?l] => destruct (filterM f l)
    end; cbn; auto.
Qed.

Lemma insertTrialDoc_ids (s : Trials.t) (trial : value) :
  Trials.ids (snd (Trials.insertTrialDoc s trial)) = Trials.ids s.
Proof.
  unfold Trials.insertTrialDoc, Trials.internalInsertTrialDocs.
  destruct (Trials.assertValidTrial s trial) as [d | e |]; cbn; try reflexivity.
  now destruct (get d "id").
Qed.

Lemma insertTrialDocs_ids (s : Trials.t) (batch : list value) :
  Trials.ids (snd (Trials.insertTrialDocs s batch)) = Trials.ids s.
Proof.
  unfold Trials.insertTrialDocs, Trials.internalInsertTrialDocs.
  destruct (mapM (Trials.assertValidTrial s) batch) as [ds | e |]; cbn;
    try reflexivity.
  now destruct (mapM (fun d => get d "id") ds).
Qed.

Lemma dense_of_ids (s s' : Trials.t) :
  dense s ->
  Trials.ids s' = Trials.ids s \/ Trials.ids s' = [] ->
  dense s'.
Proof.
  unfold dense. intros Hs [H | H]; rewrite H; [exact Hs | reflexivity].
Qed.

(** X7: the reservation list of a store is always 0, 1, ..., n-1: it is so
    in a new store, and every method keeps it so ([newTrialIds] for every
    [N], also a negative one; [refresh] and [deleteAll] whether they throw
    or not; the insertions).  Hence no id occurs twice in the list. *)
Theorem reserved_ids_stay_dense :
  (forall key do_refresh, dense (Trials.new key do_refresh))
  /\ (forall s : Trials.t,
      dense s ->
      (forall N, dense (snd (Trials.newTrialIds s N)))
      /\ dense (snd (Trials.refresh s))
      /\ dense (snd (Trials.deleteAll s))
      /\ (forall trial, dense (snd (Trials.insertTrialDoc s trial)))
      /\ (forall batch, dense (snd (Trials.insertTrialDocs s batch)))
      /\ NoDup (Trials.ids s)
      /\ (forall i, In i (Trials.ids s)
                    <-> (0 <= i < Z.of_nat (List.length (Trials.ids s)))%Z)).
Proof.
  split.
  - intros key do_refresh. unfold Trials.new.
    destruct do_refresh; [|reflexivity].
    apply (dense_of_ids (Trials.mk [] [] [] key)); [reflexivity|].
    apply refresh_ids_cases.
  - intros s Hs. split; [|split; [|split; [|split; [|split; [|split]]]]].
    + intros N. unfold dense. cbn [Trials.newTrialIds snd Trials.ids].
      rewrite length_app, range_length.
      destruct (Z.leb_spec N 0) as [Hle | Hgt].
      * rewrite (range_empty (Z.of_nat (List.length (Trials.ids s)))
                             (Z.of_nat (List.length (Trials.ids s)) + N))
          by lia.
        rewrite app_nil_r.
        match goal with
        | |- _ = range 0 ?n =>
            replace n with (Z.of_nat (List.length (Trials.ids s))) by lia
        end.
        exact Hs.
      * unfold dense in Hs. rewrite Hs at 1.
        rewrite range_app by lia. f_equal. lia.
    + apply (dense_of_ids s); [exact Hs | apply refresh_ids_cases].
    + unfold Trials.deleteAll.
      apply (dense_of_ids s); [exact Hs|].
      apply (refresh_ids_cases
               (Trials.mk (Trials.ids s) [] (Trials.trials s) (Trials.expKey s))).
    + intros trial. apply (dense_of_ids s); [exact Hs|]. left.
      apply insertTrialDoc_ids.
    + intros batch. apply (dense_of_ids s); [exact Hs|]. left.
      apply insertTrialDocs_ids.
    + unfold dense in Hs. rewrite Hs. apply range_NoDup.
    + intros i. unfold dense in Hs. rewrite Hs at 1. rewrite range_In. lia.
Qed.

Lemma reserved_ids_stay_dense_witness :
  NoDup (Trials.ids (snd (Trials.newTrialIds (empty PNull) 4))).
Proof.
  apply (proj2 reserved_ids_stay_dense).
  apply (proj2 reserved_ids_stay_dense (empty PNull)).
  apply (proj1 reserved_ids_stay_dense).
Defined.

(** X8: [newTrialIds N] hands out exactly [N] ids, all different, and none
    that is already reserved; for [N <= 0] it hands out nothing and leaves
    the store as it is. *)
Theorem newTrialIds_fresh (s : Trials.t) (N : Z) :
  dense s ->
  List.length (fst (Trials.newTrialIds s N)) = Z.to_nat N
  /\ NoDup (fst (Trials.newTrialIds s N))
  /\ (forall i, In i (fst (Trials.newTrialIds s N)) -> ~ In i (Trials.ids s))
  /\ ((N <= 0)%Z -> Trials.newTrialIds s N = ([], s)).
Proof.
  intros Hs. cbn [Trials.newTrialIds fst].
  split; [|split; [|split]].
  - rewrite range_length. f_equal. lia.
  - apply range_NoDup.
  - intros i Hi Hold. unfold dense in Hs. rewrite Hs in Hold.
    apply range_In in Hi. apply range_In in Hold. lia.
  - intros HN. unfold Trials.newTrialIds.
    rewrite (range_empty (Z.of_nat (List.length (Trials.ids s)))
                         (Z.of_nat (List.length (Trials.ids s)) + N))
      by lia.
    rewrite app_nil_r. now destruct s.
Qed.

Lemma newTrialIds_fresh_witness :
  Trials.newTrialIds (snd (Trials.newTrialIds (empty PNull) 2)) (-1)
  = ([], snd (Trials.newTrialIds (empty PNull) 2)).
Proof.
  apply (newTrialIds_fresh (snd (Trials.newTrialIds (empty PNull) 2)) (-1)).
  - reflexivity.
  - lia.
Defined.

(** ** Batches *)

Lemma assertValidTrial_same_key (s s' : Trials.t) (trial : value) :
  Trials.expKey s' = Trials.expKey s ->
  Trials.assertValidTrial s' trial = Trials.assertValidTrial s trial.
Proof. intros H. unfold Trials.assertValidTrial. now rewrite H. Qed.

Lemma mapM_assertValid_ok (s : Trials.t) (batch docs : list value) :
  mapM (Trials.assertValidTrial s) batch = Ok docs ->
  docs = batch
  /\ Forall (fun t => Trials.assertValidTrial s t = Ok t /\ readable t) batch.
Proof.
  revert docs. induction batch as [| t batch IH]; intros docs H.
  - injection H as <-. split; constructor.
  - cbn [mapM] in H.
    destruct (Trials.assertValidTrial s t) as [d | e |] eqn:Hv;
      try discriminate H.
    cbn [bind] in H.
    destruct (mapM (Trials.assertValidTrial s) batch) as [ds | e |];
      try discriminate H.
    injection H as <-.
    destruct (assertValidTrial_accepts s t d Hv) as [-> Hr].
    destruct (IH ds eq_refl) as [-> Hall].
    split; [reflexivity | constructor; auto].
Qed.

Lemma mapM_assertValid_all (s : Trials.t) (batch : list value) :
  Forall (fun t => Trials.assertValidTrial s t = Ok t) batch ->
  mapM (Trials.assertValidTrial s) batch = Ok batch.
Proof.
  induction 1 as [| t batch Ht _ IH]; [reflexivity|].
  cbn [mapM]. rewrite Ht, IH. reflexivity.
Qed.

Lemma insertTrialDocs_all_valid (s : Trials.t) (batch : list value) :
  Forall (fun t => Trials.assertValidTrial s t = Ok t /\ readable t) batch ->
  Trials.insertTrialDocs s batch
  = (Ok (map (fun t => field t "id") batch),
     Trials.mk (Trials.ids s) (Trials.dynamicTrials s ++ batch)
               (Trials.trials s) (Trials.expKey s)).
Proof.
  intros Hall. unfold Trials.insertTrialDocs.
  rewrite mapM_assertValid_all
    by (eapply Forall_impl; [|exact Hall]; now intros t [Ht _]).
  cbn [Trials.on_ok]. unfold Trials.internalInsertTrialDocs.
  rewrite (mapM_pure _ (fun t => field t "id")); [reflexivity|].
  eapply Forall_impl; [|exact Hall]. intros t [_ Hr]. now apply get_field.
Qed.

Lemma insertTrialDoc_valid (s : Trials.t) (t : value) :
  Trials.assertValidTrial s t = Ok t -> readable t ->
  Trials.insertTrialDoc s t
  = (Ok (field t "id"),
     Trials.mk (Trials.ids s) (Trials.dynamicTrials s ++ [t])
               (Trials.trials s) (Trials.expKey s)).
Proof.
  intros Hv Hr. unfold Trials.insertTrialDoc, Trials.internalInsertTrialDocs.
  rewrite Hv. cbn [Trials.on_ok mapM]. now rewrite (get_field t _ Hr).
Qed.

Lemma insert_one_by_one (batch : list value) :
  forall s0 s : Trials.t,
    Trials.expKey s = Trials.expKey s0 ->
    Forall (fun t => Trials.assertValidTrial s0 t = Ok t /\ readable t) batch ->
    fold_left (fun st t => snd (Trials.insertTrialDoc st t)) batch s
    = Trials.mk (Trials.ids s) (Trials.dynamicTrials s ++ batch)
                (Trials.trials s) (Trials.expKey s).
Proof.
  induction batch as [| t batch IH]; intros s0 s Hkey Hall.
  - cbn. rewrite app_nil_r. now destruct s.
  - inversion Hall as [| ? ? [Ht Hr] Hrest]; subst.
    cbn [fold_left].
    rewrite (insertTrialDoc_valid s t)
      by (try exact Hr; now rewrite (assertValidTrial_same_key s0 s t Hkey)).
    cbn [snd]. rewrite (IH s0) by (auto || exact Hkey).
    cbn [Trials.ids Trials.dynamicTrials Trials.trials Trials.expKey].
    now rewrite <- app_assoc.
Qed.

(** X9: a batch that [insertTrialDocs] accepts is inserted as
    [insertTrialDoc] would insert its records one after the other: the
    store left is the same, the ids returned are the records' ids in order,
    and the records are appended in order after the ones already there. *)
Theorem insertTrialDocs_is_repeated_insertTrialDoc
    (s s' : Trials.t) (batch ids : list value) :
  Trials.insertTrialDocs s batch = (Ok ids, s') ->
  ids = map (fun t => field t "id") batch
  /\ Trials.dynamicTrials s' = (Trials.dynamicTrials s ++ batch)%list
  /\ s' = fold_left (fun st t => snd (Trials.insertTrialDoc st t)) batch s.
Proof.
  intros H.
  assert (Hall : Forall (fun t => Trials.assertValidTrial s t = Ok t
                                  /\ readable t) batch).
  { unfold Trials.insertTrialDocs in H.
    destruct (mapM (Trials.assertValidTrial s) batch) as [ds | e |] eqn:Hm;
      try discriminate H.
    now destruct (mapM_assertValid_ok s batch ds Hm). }
  rewrite (insertTrialDocs_all_valid s batch Hall) in H.
  injection H as <- <-.
  split; [reflexivity|]. split; [reflexivity|].
  symmetry. now apply (insert_one_by_one batch s s).
Qed.

Lemma insertTrialDocs_is_repeated_insertTrialDoc_witness :
  Trials.mk [] [half_trial; fifth_trial] [] PNull
  = snd (Trials.insertTrialDoc
           (snd (Trials.insertTrialDoc (empty PNull) half_trial)) fifth_trial).
Proof.
  apply (insertTrialDocs_is_repeated_insertTrialDoc
           (empty PNull) (Trials.mk [] [half_trial; fifth_trial] [] PNull)
           [half_trial; fifth_trial]
           [numv (num_of_Z 1); numv (num_of_Z 2)]).
  reflexivity.
Defined.

(** ** Building records and inserting them *)

Lemma built_doc_valid (s : Trials.t) (id : Z) (r a : value) :
  matchable (Trials.expKey s) ->
  r <> undefined -> a <> undefined ->
  Trials.assertValidTrial s
    (VObj [("state", VPrim JOB_STATE_NEW); ("id", numv (num_of_Z id));
           ("result", r); ("args", a); ("expKey", VPrim (Trials.expKey s));
           ("book_time", null); ("refresh_time", null)])
  = Ok (VObj [("state", VPrim JOB_STATE_NEW); ("id", numv (num_of_Z id));
              ("result", r); ("args", a); ("expKey", VPrim (Trials.expKey s));
              ("book_time", null); ("refresh_time", null)]).
Proof.
  intros Hkey Hr Ha. apply assertValidTrial_complete.
  - unfold complete, TRIAL_KEYS, absent.
    repeat constructor; cbn; try discriminate; assumption.
  - exact Hkey.
Qed.

Lemma newTrialDocs_from_valid (s : Trials.t) (results args : list value)
    (ids : list Z) :
  matchable (Trials.expKey s) ->
  forall i,
    (forall j, j < List.length ids -> nth (i + j) results undefined <> undefined) ->
    (forall j, j < List.length ids -> nth (i + j) args undefined <> undefined) ->
    Forall (fun t => Trials.assertValidTrial s t = Ok t /\ readable t)
           (Trials.newTrialDocs_from s i ids results args)
    /\ map (fun t => field t "id") (Trials.newTrialDocs_from s i ids results args)
       = id_values ids.
Proof.
  intros Hkey. induction ids as [| id ids IH]; intros i Hres Harg.
  - split; [constructor | reflexivity].
  - cbn [Trials.newTrialDocs_from].
    destruct (IH (S i)) as [Hall Hids].
    + intros j Hj. replace (S i + j) with (i + S j) by lia.
      apply Hres. cbn. lia.
    + intros j Hj. replace (S i + j) with (i + S j) by lia.
      apply Harg. cbn. lia.
    + split.
      * constructor; [|exact Hall]. split; [|reflexivity].
        apply built_doc_valid; [exact Hkey | |].
        -- specialize (Hres 0). rewrite Nat.add_0_r in Hres.
           apply Hres. cbn. lia.
        -- specialize (Harg 0). rewrite Nat.add_0_r in Harg.
           apply Harg. cbn. lia.
      * cbn [map id_values]. f_equal. exact Hids.
Qed.

Lemma newTrialDocs_from_length (s : Trials.t) (results args : list value)
    (ids : list Z) :
  forall i, List.length (Trials.newTrialDocs_from s i ids results args)
            = List.length ids.
Proof.
  induction ids as [| id ids IH]; intros i; [reflexivity|].
  cbn. now rewrite IH.
Qed.

Lemma built_docs_insert
    (s : Trials.t) (ids : list Z) (results args : list value) :
  matchable (Trials.expKey s) ->
  defined_upto (List.length ids) results ->
  defined_upto (List.length ids) args ->
  let docs := Trials.newTrialDocs s ids results args in
  List.length docs = List.length ids
  /\ Forall (fun t => Trials.assertValidTrial s t = Ok t /\ readable t) docs
  /\ Trials.insertTrialDocs s docs
     = (Ok (id_values ids),
        Trials.mk (Trials.ids s) (Trials.dynamicTrials s ++ docs)
                  (Trials.trials s) (Trials.expKey s)).
Proof.
  intros Hkey Hres Harg docs. subst docs. unfold Trials.newTrialDocs.
  split; [apply newTrialDocs_from_length|].
  destruct (newTrialDocs_from_valid s results args ids Hkey 0 Hres Harg)
    as [Hall Hids].
  split; [exact Hall|].
  rewrite (insertTrialDocs_all_valid s _ Hall). now rewrite Hids.
Qed.

(** X10: the records [newTrialDocs] builds, one per id, are accepted by the
    store that built them: when its experiment key is not NaN and [results]
    and [args] have a defined entry for every id, [insertTrialDocs] appends
    them all and returns the ids. *)
Theorem newTrialDocs_are_accepted
    (s : Trials.t) (ids : list Z) (results args : list value) :
  matchable (Trials.expKey s) ->
  defined_upto (List.length ids) results ->
  defined_upto (List.length ids) args ->
  let docs := Trials.newTrialDocs s ids results args in
  List.length docs = List.length ids
  /\ Trials.insertTrialDocs s docs
     = (Ok (id_values ids),
        Trials.mk (Trials.ids s) (Trials.dynamicTrials s ++ docs)
                  (Trials.trials s) (Trials.expKey s)).
Proof.
  intros Hkey Hres Harg docs. subst docs. unfold Trials.newTrialDocs.
  split; [apply newTrialDocs_from_length|].
  destruct (newTrialDocs_from_valid s results args ids Hkey 0 Hres Harg)
    as [Hall Hids].
  rewrite (insertTrialDocs_all_valid s _ Hall). now rewrite Hids.
Qed.

Lemma newTrialDocs_are_accepted_witness :
  fst (Trials.insertTrialDocs (empty (PStr "A"))
         (Trials.newTrialDocs (empty (PStr "A")) [0; 1]%Z
            [Domain.newResult; Domain.newResult] [str "x"; str "y"]))
  = Ok [numv (num_of_Z 0); numv (num_of_Z 1)].
Proof.
  destruct (newTrialDocs_are_accepted (empty (PStr "A")) [0; 1]%Z
              [Domain.newResult; Domain.newResult] [str "x"; str "y"])
    as [_ Hrun].
  - reflexivity.
  - intros [| [| i]] Hi; cbn; try discriminate. cbn in Hi. lia.
  - intros [| [| i]] Hi; cbn; try discriminate. cbn in Hi. lia.
  - rewrite Hrun. reflexivity.
Defined.

Lemma classic_defined (r a : value) :
  (r = undefined \/ a = undefined) \/ (r <> undefined /\ a <> undefined).
Proof.
  destruct (r === PUndefined) eqn:Er.
  - apply strict_eq_undefined in Er. auto.
  - destruct (a === PUndefined) eqn:Ea.
    + apply strict_eq_undefined in Ea. auto.
    + right. split; now apply not_undefined.
Qed.

Lemma strict_eq_undefined_false (v : value) :
  v <> undefined -> (v === PUndefined) = false.
Proof.
  intros H. destruct (v === PUndefined) eqn:E; [|reflexivity].
  apply strict_eq_undefined in E. contradiction.
Qed.

Lemma built_doc_missing (s : Trials.t) (id : Z) (r a : value) :
  r = undefined \/ a = undefined ->
  exists key,
    Trials.assertValidTrial s
      (VObj [("state", VPrim JOB_STATE_NEW); ("id", numv (num_of_Z id));
             ("result", r); ("args", a); ("expKey", VPrim (Trials.expKey s));
             ("book_time", null); ("refresh_time", null)])
    = Throw (TrialMissingKey key)
    /\ (key = "result" \/ key = "args").
Proof.
  intros H. unfold Trials.assertValidTrial.
  cbn [Trials.keys_length bind List.length Nat.leb TRIAL_KEYS findM get own
       String.eqb Ascii.eqb Bool.eqb numv strict_eq prim_strict_eq].
  destruct (r === PUndefined) eqn:Er.
  - exists "result". split; [reflexivity | now left].
  - destruct H as [-> | ->]; [discriminate Er|].
    exists "args". split; [reflexivity | now right].
Qed.

(** X11: a record without result or args cannot be built into the store:
    on a store whose experiment key is [===] to itself (any key but NaN),
    when [results] or [args] has no defined entry for some id, the whole
    batch [newTrialDocs] builds is refused with a missing-field error naming
    [result] or [args], and nothing is appended. *)
Theorem newTrialDocs_needs_results_and_args
    (s : Trials.t) (ids : list Z) (results args : list value) (i : nat) :
  matchable (Trials.expKey s) ->
  i < List.length ids ->
  nth i results undefined = undefined \/ nth i args undefined = undefined ->
  exists key,
    Trials.insertTrialDocs s (Trials.newTrialDocs s ids results args)
    = (Throw (TrialMissingKey key), s)
    /\ (key = "result" \/ key = "args").
Proof.
  intros Hkey Hi Hundef.
  enough (Hgen : forall ids base i,
             i < List.length ids ->
             nth (base + i) results undefined = undefined
             \/ nth (base + i) args undefined = undefined ->
             exists key,
               mapM (Trials.assertValidTrial s)
                    (Trials.newTrialDocs_from s base ids results args)
               = Throw (TrialMissingKey key)
               /\ (key = "result" \/ key = "args")).
  { destruct (Hgen ids 0 i Hi Hundef) as (key & Hrun & Hwhich).
    exists key. split; [|exact Hwhich].
    unfold Trials.insertTrialDocs, Trials.newTrialDocs. now rewrite Hrun. }
  clear ids i Hi Hundef.
  induction ids as [| id ids IH]; intros base i Hi Hundef; [cbn in Hi; lia|].
  cbn [Trials.newTrialDocs_from mapM].
  destruct (classic_defined (nth base results undefined)
                            (nth base args undefined)) as [Hhead | [Hr Ha]].
  - destruct (built_doc_missing s id _ _ Hhead) as (key & Hrun & Hwhich).
    exists key. now rewrite Hrun.
  - rewrite (built_doc_valid s id _ _ Hkey Hr Ha). cbn [bind].
    destruct i as [| i].
    + rewrite Nat.add_0_r in Hundef. tauto.
    + destruct (IH (S base) i) as (key & Hrun & Hwhich).
      * cbn in Hi. lia.
      * now replace (S base + i) with (base + S i) by lia.
      * exists key. now rewrite Hrun.
Qed.

Lemma newTrialDocs_needs_results_and_args_witness :
  exists key,
    Trials.insertTrialDocs (empty PNull)
      (Trials.newTrialDocs (empty PNull) [0; 1]%Z [Domain.newResult]
                           [str "x"; str "y"])
    = (Throw (TrialMissingKey key), empty PNull)
    /\ (key = "result" \/ key = "args").
Proof.
  apply (newTrialDocs_needs_results_and_args (empty PNull) [0; 1]%Z
           [Domain.newResult] [str "x"; str "y"] 1).
  - reflexivity.
  - cbn. lia.
  - now left.
Defined.

(** ** Counting *)

Lemma indexOf_from_found (arr : list prim) (v : value) :
  forall i, (0 <= i)%Z ->
    (0 <=? indexOf_from i arr v)%Z = existsb (fun p => v === p) arr.
Proof.
  induction arr as [| p arr IH]; intros i Hi; cbn [indexOf_from existsb].
  - reflexivity.
  - destruct (v === p); cbn [orb].
    + now apply Z.leb_le.
    + apply IH. lia.
Qed.

(** Counting over records that can be read is counting the ones whose state
    is among the states asked for. *)
Lemma countByStateSynced_counts (s : Trials.t) (arg : Trials.states)
    (given : option (list value)) :
  let counted := match given with Some l => l | None => Trials.trials s end in
  Forall readable counted ->
  Trials.countByStateSynced s arg given
  = Ok (List.length (filter (state_among arg) counted)).
Proof.
  intros counted Hr. unfold Trials.countByStateSynced.
  fold counted. fold (among arg).
  rewrite (filterM_pure _ (state_among arg)); [reflexivity|].
  eapply Forall_impl; [|exact Hr]. intros t Ht. cbn beta.
  rewrite (get_field t _ Ht). cbn [bind]. f_equal.
  unfold indexOf, state_among. now apply indexOf_from_found.
Qed.

Lemma filter_readable (f : value -> bool) (l : list value) :
  Forall readable l -> Forall readable (filter f l).
Proof.
  intros H. apply Forall_forall. intros t Ht. apply filter_In in Ht.
  rewrite Forall_forall in H. now apply H.
Qed.

Lemma filter_none {A} (f : A -> bool) (l : list A) :
  (forall x, In x l -> f x = false) -> filter f l = [].
Proof.
  induction l as [| x l IH]; intros H; [reflexivity|].
  cbn [filter]. rewrite (H x (or_introl eq_refl)).
  apply IH. intros y Hy. apply H. now right.
Qed.

(** X12: right after a [refresh] the view holds no ERROR-state record, so
    counting the ERROR state over the view gives 0, and asking for ERROR
    besides other states changes no count; and no count exceeds the length
    of the view. *)
Theorem no_ERROR_counted_after_refresh (s : Trials.t) :
  Forall readable (Trials.dynamicTrials s) ->
  let s' := snd (Trials.refresh s) in
  Trials.countByStateSynced s' (Trials.One JOB_STATE_ERROR) None = Ok 0
  /\ (forall states,
      Trials.countByStateSynced s' (Trials.Many (JOB_STATE_ERROR :: states)) None
      = Trials.countByStateSynced s' (Trials.Many states) None)
  /\ (forall arg, exists n,
      Trials.countByStateSynced s' arg None = Ok n /\ n <= Trials.length s').
Proof.
  intros Hr s'.
  assert (Hview : Trials.trials s' = filter (retained s) (Trials.dynamicTrials s)).
  { subst s'. now rewrite (refresh_runs s Hr). }
  assert (Hr' : Forall readable (Trials.trials s')).
  { rewrite Hview. now apply filter_readable. }
  assert (Hno : forall t, In t (Trials.trials s') ->
                          (field t "state" === JOB_STATE_ERROR) = false).
  { intros t Ht. rewrite Hview in Ht. apply filter_In in Ht.
    destruct Ht as [_ Ht]. unfold retained in Ht.
    apply andb_true_iff in Ht. destruct Ht as [Ht _].
    now apply negb_true_iff in Ht. }
  split; [|split].
  - rewrite (countByStateSynced_counts s' _ None Hr'). f_equal.
    rewrite filter_none; [reflexivity|].
    intros t Ht. unfold state_among. cbn [among existsb].
    now rewrite (Hno t Ht).
  - intros states.
    rewrite !(countByStateSynced_counts s' _ None Hr'). f_equal. f_equal.
    apply filter_ext_in. intros t Ht. unfold state_among. cbn [among existsb].
    now rewrite (Hno t Ht).
  - intros arg. eexists. split.
    + exact (countByStateSynced_counts s' arg None Hr').
    + unfold Trials.length. apply filter_length_le.
Qed.

Lemma no_ERROR_counted_after_refresh_witness :
  Trials.countByStateSynced
    (snd (Trials.refresh
            (Trials.mk [] [half_trial;
                           doc 9 Domain.newResult (str "e") JOB_STATE_ERROR PNull]
                       [] PNull)))
    (Trials.One JOB_STATE_ERROR) None
  = Ok 0.
Proof.
  apply (no_ERROR_counted_after_refresh
           (Trials.mk [] [half_trial;
                          doc 9 Domain.newResult (str "e") JOB_STATE_ERROR PNull]
                      [] PNull)).
  repeat constructor.
Defined.

(** X13: with a null experiment key [countByStateUnsynced] counts over the
    authoritative list itself: every inserted record whose state is among
    the states asked for is counted, refreshed into the view or not, ERROR
    records included. *)
Theorem countByStateUnsynced_null_key (s : Trials.t) (arg : Trials.states) :
  Trials.expKey s = PNull ->
  Forall readable (Trials.dynamicTrials s) ->
  Trials.countByStateUnsynced s arg
  = Ok (List.length (filter (state_among arg) (Trials.dynamicTrials s))).
Proof.
  intros Hkey Hr. unfold Trials.countByStateUnsynced. rewrite Hkey.
  cbn [strict_eq prim_strict_eq negb bind].
  exact (countByStateSynced_counts s arg (Some (Trials.dynamicTrials s)) Hr).
Qed.

Lemma countByStateUnsynced_null_key_witness :
  Trials.countByStateUnsynced
    (Trials.mk [] [half_trial;
                   doc 9 Domain.newResult (str "e") JOB_STATE_ERROR PNull]
               [] PNull)
    (Trials.Many [JOB_STATE_DONE; JOB_STATE_ERROR])
  = Ok 2.
Proof.
  rewrite (countByStateUnsynced_null_key
             (Trials.mk [] [half_trial;
                            doc 9 Domain.newResult (str "e") JOB_STATE_ERROR PNull]
                        [] PNull)
             (Trials.Many [JOB_STATE_DONE; JOB_STATE_ERROR])).
  - reflexivity.
  - reflexivity.
  - repeat constructor.
Defined.

(** ** deleteAll *)

(** X14: [deleteAll] cannot throw; it empties the authoritative list and the
    view and keeps the experiment key.  The reserved ids survive it under a
    null key, so the ids of deleted records are not handed out again; under
    a non-null key the next reservation starts again at 0. *)
Theorem deleteAll_clears_records (s : Trials.t) :
  Trials.deleteAll s
  = (Ok tt,
     Trials.mk (if VPrim (Trials.expKey s) === PNull then Trials.ids s else [])
               [] [] (Trials.expKey s))
  /\ forall N,
       fst (Trials.newTrialIds (snd (Trials.deleteAll s)) N)
       = if VPrim (Trials.expKey s) === PNull
         then fst (Trials.newTrialIds s N)
         else range 0 N.
Proof.
  assert (Hrun : Trials.deleteAll s
                 = (Ok tt,
                    Trials.mk (if VPrim (Trials.expKey s) === PNull
                               then Trials.ids s else [])
                              [] [] (Trials.expKey s))).
  { unfold Trials.deleteAll. rewrite refresh_runs by constructor. reflexivity. }
  split; [exact Hrun|].
  intros N. rewrite Hrun. cbn [snd Trials.newTrialIds fst Trials.ids].
  now destruct (VPrim (Trials.expKey s) === PNull).
Qed.

(** ** From reservation to the view *)

Lemma new_is_empty (key : prim) (do_refresh : bool) :
  Trials.new key do_refresh = Trials.mk [] [] [] key.
Proof.
  unfold Trials.new. destruct do_refresh; [|reflexivity].
  rewrite refresh_runs by constructor.
  cbn [snd Trials.ids Trials.dynamicTrials Trials.expKey filter].
  now destruct (VPrim key === PNull).
Qed.

Lemma filter_all {A} (f : A -> bool) (l : list A) :
  (forall x, In x l -> f x = true) -> filter f l = l.
Proof.
  induction l as [| x l IH]; intros H; [reflexivity|].
  cbn [filter]. rewrite (H x (or_introl eq_refl)). f_equal.
  apply IH. intros y Hy. apply H. now right.
Qed.

Lemma newTrialDocs_from_new (s : Trials.t) (results args : list value)
    (ids : list Z) :
  forall i t,
    In t (Trials.newTrialDocs_from s i ids results args) ->
    field t "state" = VPrim JOB_STATE_NEW
    /\ field t "expKey" = VPrim (Trials.expKey s).
Proof.
  induction ids as [| id ids IH]; intros i t Hin; [destruct Hin|].
  cbn [Trials.newTrialDocs_from] in Hin. destruct Hin as [<- | Hin].
  - split; reflexivity.
  - now apply (IH (S i)).
Qed.

(** X15: the workflow of a search loop on a new store: reserve [n] ids,
    build one record per id, insert the batch, refresh.  The ids are
    0..n-1, the view is exactly the batch, in order, and all [n] records
    are counted in state NEW (given results and args for every id and an
    experiment key other than NaN). *)
Theorem reserve_build_insert_refresh
    (key : prim) (n : Z) (results args : list value) :
  matchable key ->
  defined_upto (Z.to_nat n) results ->
  defined_upto (Z.to_nat n) args ->
  let reserved := Trials.newTrialIds (Trials.new key true) n in
  let docs := Trials.newTrialDocs (snd reserved) (fst reserved) results args in
  let inserted := Trials.insertTrialDocs (snd reserved) docs in
  let s := snd (Trials.refresh (snd inserted)) in
  fst reserved = range 0 n
  /\ fst inserted = Ok (id_values (range 0 n))
  /\ Trials.trials s = docs
  /\ Trials.length s = Z.to_nat n
  /\ Trials.countByStateSynced s (Trials.One JOB_STATE_NEW) None
     = Ok (Z.to_nat n).
Proof.
  intros Hkey Hres Harg reserved docs inserted s.
  assert (Hreserved : reserved
                      = (range 0 n, Trials.mk (range 0 n) [] [] key)).
  { subst reserved. now rewrite new_is_empty. }
  assert (Hlen : List.length (range 0 n) = Z.to_nat n).
  { rewrite range_length. f_equal. lia. }
  assert (Hdocs : docs = Trials.newTrialDocs (Trials.mk (range 0 n) [] [] key)
                           (range 0 n) results args).
  { subst docs. now rewrite Hreserved. }
  destruct (built_docs_insert
              (Trials.mk (range 0 n) [] [] key) (range 0 n) results args)
    as (Hdl & Hvalid & Hrun); try (now rewrite Hlen); [exact Hkey|].
  assert (Hinserted : inserted
                      = (Ok (id_values (range 0 n)),
                         Trials.mk (range 0 n) docs [] key)).
  { subst inserted. rewrite Hreserved. cbn [snd]. rewrite Hdocs.
    exact Hrun. }
  assert (Hreadable : Forall readable docs).
  { rewrite Hdocs. eapply Forall_impl; [|exact Hvalid]. now intros t [_ Ht]. }
  assert (Hnew : forall t, In t docs ->
             field t "state" = VPrim JOB_STATE_NEW
             /\ field t "expKey" = VPrim key).
  { intros t Ht. rewrite Hdocs in Ht.
    exact (newTrialDocs_from_new _ results args (range 0 n) 0 t Ht). }
  assert (Hview : Trials.trials s = docs).
  { subst s. rewrite Hinserted. cbn [snd].
    rewrite refresh_runs by exact Hreadable.
    cbn [snd Trials.trials Trials.dynamicTrials]. apply filter_all.
    intros t Ht. destruct (Hnew t Ht) as [Hst Hk]. unfold retained.
    rewrite Hst, Hk. cbn [Trials.expKey strict_eq].
    unfold matchable in Hkey. rewrite Hkey. now rewrite orb_true_r. }
  split; [now rewrite Hreserved|]. split; [now rewrite Hinserted|].
  split; [exact Hview|]. split.
  - unfold Trials.length. rewrite Hview, Hdocs, Hdl. exact Hlen.
  - rewrite (countByStateSynced_counts s _ None) by now rewrite Hview.
    cbn match. rewrite Hview. rewrite filter_all.
    + f_equal. rewrite Hdocs, Hdl. exact Hlen.
    + intros t Ht. destruct (Hnew t Ht) as [Hst _]. unfold state_among.
      rewrite Hst. reflexivity.
Qed.

Lemma reserve_build_insert_refresh_witness :
  Trials.countByStateSynced
    (snd (Trials.refresh
            (snd (Trials.insertTrialDocs
                    (snd (Trials.newTrialIds (Trials.new (PStr "A") true) 2))
                    (Trials.newTrialDocs
                       (snd (Trials.newTrialIds (Trials.new (PStr "A") true) 2))
                       (fst (Trials.newTrialIds (Trials.new (PStr "A") true) 2))
                       [Domain.newResult; Domain.newResult]
                       [str "x"; str "y"])))))
    (Trials.One JOB_STATE_NEW) None
  = Ok 2.
Proof.
  apply (reserve_build_insert_refresh (PStr "A") 2
           [Domain.newResult; Domain.newResult] [str "x"; str "y"]).
  - reflexivity.
  - intros [| [| i]] Hi; cbn; try discriminate. cbn in Hi. lia.
  - intros [| [| i]] Hi; cbn; try discriminate. cbn in Hi. lia.
Defined.

(** ** bestTrial on arbitrary views *)

Lemma bestTrial_step_total (compare : value -> value -> result bool)
    (best t : value) :
  total_comparator compare -> inspectable best -> inspectable t ->
  bestTrial_step compare best t = Ok best
  \/ (bestTrial_step compare best t = Ok t /\ status_of t = VPrim STATUS_OK).
Proof.
  intros Htotal [Hb Hrb] [Ht Hrt]. unfold bestTrial_step.
  rewrite (get_field t _ Ht), (get_field best _ Hb). cbn [bind].
  rewrite (get_field _ _ Hrt). cbn [bind].
  destruct (field (field t "result") "status" === STATUS_OK) eqn:Hs;
    [|now left].
  destruct (Htotal (field t "result") (field best "result")) as [c Hc].
  rewrite Hc. cbn [bind]. destruct c; [right | now left].
  split; [reflexivity|]. now apply strict_eq_str in Hs.
Qed.

Lemma bestTrial_scan_member (compare : value -> value -> result bool)
    (l : list value) :
  total_comparator compare ->
  forall best,
    inspectable best -> Forall inspectable l ->
    exists b,
      foldM (bestTrial_step compare) l best = Ok b
      /\ (b = best \/ (In b l /\ status_of b = VPrim STATUS_OK)).
Proof.
  intros Htotal. induction l as [| t l IH]; intros best Hbest Hl.
  - exists best. split; [reflexivity | now left].
  - inversion Hl as [| ? ? Ht Hrest]; subst. cbn [foldM].
    destruct (bestTrial_step_total compare best t Htotal Hbest Ht)
      as [Hstep | [Hstep Hok]]; rewrite Hstep; cbn [bind].
    + destruct (IH best Hbest Hrest) as (b & Hrun & [-> | [Hin Hb]]).
      * exists best. split; [exact Hrun | now left].
      * exists b. split; [exact Hrun|]. right. split; [now right | exact Hb].
    + destruct (IH t Ht Hrest) as (b & Hrun & [-> | [Hin Hb]]).
      * exists t. split; [exact Hrun|]. right. split; [now left | exact Hok].
      * exists b. split; [exact Hrun|]. right. split; [now right | exact Hb].
Qed.

(** X16: with a comparator that always answers, on a view whose records and
    results can be read, [bestTrial] cannot throw and never makes a record
    up: it returns undefined on an empty view and otherwise a record of the
    view, which is the first record or one whose result status is OK. *)
Theorem bestTrial_returns_view_member
    (s : Trials.t) (compare : value -> value -> result bool) :
  total_comparator compare ->
  Forall inspectable (Trials.trials s) ->
  exists b,
    Trials.bestTrial s compare = Ok b
    /\ (Trials.trials s = [] -> b = undefined)
    /\ (Trials.trials s <> [] ->
        In b (Trials.trials s)
        /\ (b = hd undefined (Trials.trials s)
            \/ status_of b = VPrim STATUS_OK)).
Proof.
  intros Htotal Hall. rewrite bestTrial_unfold.
  destruct (Trials.trials s) as [| t0 rest] eqn:Hview.
  - exists undefined. split; [reflexivity|]. split; [reflexivity|].
    intros H. now elim H.
  - assert (H0 : inspectable t0) by now inversion Hall.
    destruct (bestTrial_scan_member compare (t0 :: rest) Htotal t0 H0 Hall)
      as (b & Hrun & Hb).
    exists b. cbn [hd]. split; [exact Hrun|]. split; [discriminate|].
    intros _. destruct Hb as [-> | [Hin Hok]].
    + split; [now left | now left].
    + split; [exact Hin | now right].
Qed.

Lemma bestTrial_returns_view_member_witness :
  exists b,
    Trials.bestTrial (viewing [failed_trial; half_trial; fifth_trial])
                     (fun _ _ => Ok true) = Ok b
    /\ In b [failed_trial; half_trial; fifth_trial].
Proof.
  destruct (bestTrial_returns_view_member
              (viewing [failed_trial; half_trial; fifth_trial])
              (fun _ _ => Ok true))
    as (b & Hrun & _ & Hin).
  - intros a b. now exists true.
  - repeat constructor.
  - exists b. split; [exact Hrun|]. apply Hin. discriminate.
Defined.

(** X17: on a view none of whose records and results is null or undefined,
    when no record has result status OK the comparator is never consulted:
    whatever it is (it may throw), [bestTrial] returns the first record of
    the view and [argmin] and [argmax] return its args. *)
Theorem bestTrial_without_OK_is_first
    (otp : value -> prim) (stn : string -> number)
    (s : Trials.t) (compare : value -> value -> result bool) :
  Forall (fun t => inspectable t /\ (status_of t === STATUS_OK) = false)
         (Trials.trials s) ->
  Trials.bestTrial s compare = Ok (hd undefined (Trials.trials s))
  /\ Trials.argmin otp stn s = Ok (args_of (hd undefined (Trials.trials s)))
  /\ Trials.argmax otp stn s = Ok (args_of (hd undefined (Trials.trials s))).
Proof.
  intros Hall.
  assert (Hscan : forall compare' l best,
             Forall (fun t => inspectable t
                              /\ (status_of t === STATUS_OK) = false) l ->
             foldM (bestTrial_step compare') l best = Ok best).
  { intros compare' l best Hl. induction Hl as [| t l [[Ht Hrt] Hs] _ IH];
      [reflexivity|].
    cbn [foldM]. unfold bestTrial_step at 1.
    rewrite (get_field t _ Ht). cbn [bind]. rewrite (get_field _ _ Hrt).
    cbn [bind]. fold (status_of t). rewrite Hs. cbn [bind]. exact IH. }
  assert (Hargs : forall t,
             (t = undefined \/ readable t) ->
             (if t !== PUndefined then get t "args" else Ok undefined)
             = Ok (args_of t)).
  { intros t [-> | Ht]; [reflexivity|]. rewrite (get_field t _ Ht).
    now destruct (t !== PUndefined) eqn:E;
      [| apply negb_false_iff, strict_eq_undefined in E; subst]. }
  assert (Hhd : hd undefined (Trials.trials s) = undefined
                \/ readable (hd undefined (Trials.trials s))).
  { destruct Hall as [| t l [[Ht _] _] _]; [now left | now right]. }
  split; [|split].
  - rewrite bestTrial_unfold. now apply Hscan.
  - unfold Trials.argmin. rewrite bestTrial_unfold, (Hscan _ _ _ Hall).
    cbn [bind]. now apply Hargs.
  - unfold Trials.argmax. rewrite bestTrial_unfold, (Hscan _ _ _ Hall).
    cbn [bind]. now apply Hargs.
Qed.

Lemma bestTrial_without_OK_is_first_witness :
  Trials.bestTrial
    (viewing [failed_trial; doc 5 Domain.newResult (str "n") JOB_STATE_NEW PNull])
    (fun _ _ => Throw TypeError)
  = Ok failed_trial.
Proof.
  apply (bestTrial_without_OK_is_first (fun _ => PUndefined) (fun _ => NaN)
           (viewing [failed_trial;
                     doc 5 Domain.newResult (str "n") JOB_STATE_NEW PNull])
           (fun _ _ => Throw TypeError)).
  repeat constructor.
Defined.

(** ** Ties *)

Lemma SFltb_trans (x y z : number) :
  SFltb x y = true -> SFltb y z = true -> SFltb x z = true.
Proof. unfold SFltb. sf_cases; order_cases. Qed.

Lemma SFltb_before_not_less (x y z : number) :
  is_NaN y = false -> is_NaN z = false ->
  SFltb x y = true -> SFltb z y = false -> SFltb x z = true.
Proof. unfold SFltb. intros Hy Hz. sf_cases; order_cases. Qed.

Lemma scan_first_least otp stn (l : list value) :
  forall best,
    ok_with_loss best -> Forall ok_with_loss l ->
    exists b,
      foldM (bestTrial_step (Trials.compare_min otp stn)) l best = Ok b
      /\ ok_with_loss b
      /\ ((b = best
           /\ Forall (fun u => SFleb (number_of (loss_of b))
                                     (number_of (loss_of u)) = true) l)
          \/ exists pre post,
               l = (pre ++ b :: post)%list
               /\ SFltb (number_of (loss_of b)) (number_of (loss_of best)) = true
               /\ Forall (fun u => SFltb (number_of (loss_of b))
                                         (number_of (loss_of u)) = true) pre
               /\ Forall (fun u => SFleb (number_of (loss_of b))
                                         (number_of (loss_of u)) = true) post).
Proof.
  induction l as [| t l IH]; intros best Hbest Hl.
  - exists best. split; [reflexivity|]. split; [exact Hbest|]. left.
    split; [reflexivity | constructor].
  - inversion Hl as [| ? ? Ht Hrest]; subst.
    pose proof (proj2 (proper_number_of _ (proj2 Hbest))) as Nbest.
    pose proof (proj2 (proper_number_of _ (proj2 Ht))) as Nt.
    cbn [foldM]. rewrite (step_min otp stn best t Hbest Ht). cbn [bind].
    destruct (SFltb (number_of (loss_of t)) (number_of (loss_of best)))
      eqn:Hcmp.
    + destruct (IH t Ht Hrest)
        as (b & Hrun & Hb & [[-> Hall] | (pre & post & -> & Hlt & Hpre & Hpost)]).
      * exists t. split; [exact Hrun|]. split; [exact Ht|]. right.
        exists [], l. repeat split; auto.
      * exists b. split; [exact Hrun|]. split; [exact Hb|]. right.
        exists (t :: pre), post. repeat split; auto.
        eapply SFltb_trans; eassumption.
    + destruct (IH best Hbest Hrest)
        as (b & Hrun & Hb & [[-> Hall] | (pre & post & -> & Hlt & Hpre & Hpost)]).
      * exists best. split; [exact Hrun|]. split; [exact Hbest|]. left.
        split; [reflexivity|]. constructor; [|exact Hall].
        now apply SFltb_false_leb.
      * exists b. split; [exact Hrun|]. split; [exact Hb|]. right.
        exists (t :: pre), post. repeat split; auto.
        constructor; [|exact Hpre].
        eapply SFltb_before_not_less; [exact Nbest | exact Nt | exact Hlt | exact Hcmp].
Qed.

(** X18: among OK trials with proper losses [argmin] breaks ties in favour
    of the earliest record: the trial whose args it returns has a loss
    strictly below the loss of every record before it in the view and at
    most the loss of every record after it. *)
Theorem argmin_is_first_least otp stn (s : Trials.t) :
  Trials.trials s <> [] ->
  Forall ok_with_loss (Trials.trials s) ->
  exists pre t post,
    Trials.trials s = (pre ++ t :: post)%list
    /\ Trials.bestTrial s (Trials.compare_min otp stn) = Ok t
    /\ Trials.argmin otp stn s = Ok (args_of t)
    /\ Forall (fun u => SFltb (number_of (loss_of t))
                              (number_of (loss_of u)) = true) pre
    /\ Forall (fun u => SFleb (number_of (loss_of t))
                              (number_of (loss_of u)) = true) post.
Proof.
  intros Hne Hall.
  destruct (Trials.trials s) as [| t0 rest] eqn:Hview; [contradiction|].
  assert (H0 : ok_with_loss t0) by now inversion Hall.
  assert (Hargs : forall b, ok_with_loss b ->
             foldM (bestTrial_step (Trials.compare_min otp stn))
                   (t0 :: rest) t0 = Ok b ->
             Trials.argmin otp stn s = Ok (args_of b)).
  { intros b Hb Hrun. unfold Trials.argmin.
    rewrite bestTrial_unfold, Hview. cbn [hd]. rewrite Hrun. cbn [bind].
    destruct (ok_trial_readable b (proj1 Hb)) as [Hrb _].
    rewrite (get_field b _ Hrb).
    destruct b as [[| | ? | ? | ?] | ? | ?]; try discriminate Hrb; reflexivity. }
  destruct (scan_first_least otp stn (t0 :: rest) t0 H0 Hall)
    as (b & Hrun & Hb & [[-> Hleast] | (pre & post & Hsplit & _ & Hpre & Hpost)]).
  - exists [], t0, rest. split; [reflexivity|].
    split; [now rewrite bestTrial_unfold, Hview|].
    split; [now apply Hargs|]. split; [constructor|].
    now inversion Hleast.
  - exists pre, b, post. split; [exact Hsplit|].
    split; [now rewrite bestTrial_unfold, Hview|].
    split; [now apply Hargs|]. now split.
Qed.

Lemma argmin_is_first_least_witness :
  Trials.argmin (fun _ => PUndefined) (fun _ => NaN)
    (viewing [half_trial; fifth_trial;
              doc 7 (result_of STATUS_OK fifth) (str "later") JOB_STATE_DONE PNull])
  = Ok (str "c").
Proof.
  destruct (argmin_is_first_least (fun _ => PUndefined) (fun _ => NaN)
              (viewing [half_trial; fifth_trial;
                        doc 7 (result_of STATUS_OK fifth) (str "later")
                            JOB_STATE_DONE PNull]))
    as (pre & t & post & Hsplit & Hbest & Hargs & _).
  - discriminate.
  - repeat constructor; try reflexivity; eexists; split; reflexivity.
  - rewrite Hargs. cbn in Hbest. injection Hbest as <-. reflexivity.
Defined.

(** ** Validation of what is not a record *)

(** X19: nothing but an object gets into the store, and the error tells the
    kinds apart: null and undefined raise the runtime's TypeError; numbers,
    booleans, the empty string and the empty array are refused with 'trial
    should be an object'; a non-empty string or array is refused as a record
    that misses [id].  The store is left as it was in every case. *)
Theorem insertTrialDoc_refuses_non_objects (s : Trials.t) (trial : value) :
  (forall props, trial <> VObj props) ->
  exists e,
    Trials.insertTrialDoc s trial = (Throw e, s)
    /\ e = match trial with
           | VPrim PUndefined | VPrim PNull => TypeError
           | VPrim (PBool _) | VPrim (PNum _) => TrialShouldBeObject
           | VPrim (PStr chars) =>
               if String.eqb chars "" then TrialShouldBeObject
               else TrialMissingKey "id"
           | VArr [] => TrialShouldBeObject
           | VArr (_ :: _) => TrialMissingKey "id"
           | VObj _ => TrialShouldBeObject
           end.
Proof.
  intros Hno. eexists. split; [|reflexivity].
  apply insertTrialDoc_invalid.
  destruct trial as [[| | b | x | chars] | [| item items] | props];
    try reflexivity.
  - now destruct chars.
  - now elim (Hno props).
Qed.

Lemma insertTrialDoc_refuses_non_objects_witness :
  Trials.insertTrialDoc (empty PNull) (VArr [half_trial])
  = (Throw (TrialMissingKey "id"), empty PNull).
Proof.
  destruct (insertTrialDoc_refuses_non_objects (empty PNull) (VArr [half_trial]))
    as (e & Hrun & ->).
  - discriminate.
  - exact Hrun.
Defined.

(** ** A null result in the view *)

Lemma foldM_app {A B} (f : B -> A -> result B) (l1 l2 : list A) (acc : B) :
  foldM f (l1 ++ l2) acc = (mid <- foldM f l1 acc ;; foldM f l2 mid).
Proof.
  revert acc. induction l1 as [| x l1 IH]; intros acc; [reflexivity|].
  cbn [app foldM]. destruct (f acc x); cbn [bind]; auto.
Qed.

Lemma scan_inspectable (compare : value -> value -> result bool)
    (l : list value) (best : value) :
  total_comparator compare ->
  inspectable best -> Forall inspectable l ->
  exists b, foldM (bestTrial_step compare) l best = Ok b.
Proof.
  intros Htotal Hbest Hl.
  destruct (bestTrial_scan_member compare l Htotal best Hbest Hl) as (b & Hrun & _).
  now exists b.
Qed.

(** X20: a record whose result is null passes the validation (null is not
    undefined), and one such record in the view is enough for [losses],
    [statuses] and [bestTrial] to throw the runtime's TypeError, whatever
    the other records are. *)
Theorem null_result_breaks_queries
    (s : Trials.t) (pre post : list value) (t : value)
    (compare : value -> value -> result bool) :
  Trials.trials s = (pre ++ t :: post)%list ->
  Forall inspectable pre -> readable t -> Forall readable post ->
  field t "result" = null ->
  total_comparator compare ->
  Trials.losses s = Throw TypeError
  /\ Trials.statuses s = Throw TypeError
  /\ Trials.bestTrial s compare = Throw TypeError.
Proof.
  intros Hview Hpre Ht Hpost Hnull Htotal.
  assert (Hall : Forall readable (Trials.trials s)).
  { rewrite Hview. apply Forall_app. split.
    - eapply Forall_impl; [|exact Hpre]. now intros u [Hu _].
    - now constructor. }
  assert (Hresults : Trials.results s
                     = Ok (map (fun u => field u "result") (Trials.trials s))).
  { unfold Trials.results. apply mapM_pure.
    eapply Forall_impl; [|exact Hall]. intros u Hu. now apply get_field. }
  assert (Hthrow : forall f : value -> result value,
             (forall r, readable r -> exists v, f r = Ok v) ->
             f null = Throw TypeError ->
             mapM f (map (fun u => field u "result") (Trials.trials s))
             = Throw TypeError).
  { intros f Hok Hbad. rewrite Hview, map_app. cbn [map]. rewrite Hnull.
    apply mapM_first_throw; [|exact Hbad].
    apply Forall_forall. intros r Hr. apply in_map_iff in Hr.
    destruct Hr as (u & <- & Hu). rewrite Forall_forall in Hpre.
    apply Hok. now apply Hpre. }
  split; [|split].
  - unfold Trials.losses. rewrite Hresults. cbn [bind]. apply Hthrow.
    + intros r Hr. unfold Trials.loss_or_accuracy.
      rewrite !(get_field r _ Hr). cbn [bind].
      destruct (ToBoolean (field r "loss")); eauto.
    + reflexivity.
  - unfold Trials.statuses. rewrite Hresults. cbn [bind]. apply Hthrow.
    + intros r Hr. rewrite (get_field r _ Hr). eauto.
    + reflexivity.
  - rewrite bestTrial_unfold, Hview, foldM_app.
    assert (Hstep : forall best,
               foldM (bestTrial_step compare) (t :: post) best = Throw TypeError).
    { intros best. cbn [foldM]. unfold bestTrial_step.
      rewrite (get_field t _ Ht), Hnull. reflexivity. }
    destruct pre as [| p pre'].
    + cbn [foldM bind]. apply Hstep.
    + cbn [app hd].
      destruct (scan_inspectable compare (p :: pre') p Htotal) as [b Hb];
        [now inversion Hpre | exact Hpre|].
      rewrite Hb. cbn [bind]. apply Hstep.
Qed.

(** A record with a null result, inserted and refreshed into the view. *)
Lemma null_result_breaks_queries_witness :
  let t := doc 4 null (str "n") JOB_STATE_NEW PNull in
  let s := snd (Trials.refresh
                  (snd (Trials.insertTrialDoc
                          (snd (Trials.insertTrialDoc (empty PNull) half_trial))
                          t))) in
  fst (Trials.insertTrialDoc
         (snd (Trials.insertTrialDoc (empty PNull) half_trial)) t)
  = Ok (numv (num_of_Z 4))
  /\ Trials.losses s = Throw TypeError.
Proof.
  intros t s. split; [reflexivity|].
  apply (null_result_breaks_queries s [half_trial] [] t (fun _ _ => Ok false)).
  - reflexivity.
  - repeat constructor.
  - reflexivity.
  - constructor.
  - reflexivity.
  - intros a b. now exists false.
Defined.

(** ** The evaluator with capabilities in the tree *)


Lemma own_without_name (key : string) (props : list (string * value)) :
  own key (filter (fun kv => negb (String.eqb (fst kv) "name")) props)
  = if String.eqb "name" key then undefined else own key props.
Proof.
  induction props as [| [k x] props IH]; cbn [filter fst own].
  - now destruct (String.eqb "name" key).
  - destruct (String.eqb k "name") eqn:E; cbn [negb own].
    + apply String.eqb_eq in E. subst k. rewrite IH.
      now destruct (String.eqb "name" key).
    + rewrite IH. destruct (String.eqb "name" key) eqn:E2; [|reflexivity].
      apply String.eqb_eq in E2. subst key. now rewrite E.
Qed.

Section EvaluatorShape.
Variable RandomState : Type.
Variable newRandomState : RandomState.
Variable this : value -> option (BaseSpace.capability RandomState).


Lemma map_eval_app
    (ev : value -> RandomState -> result (value * RandomState))
    (xs ys : list value) :
  forall rng,
    BaseSpace.map_eval RandomState ev (xs ++ ys) rng
    = ('(vs, r1) <- BaseSpace.map_eval RandomState ev xs rng ;;
       '(ws, r2) <- BaseSpace.map_eval RandomState ev ys r1 ;;
       Ok ((vs ++ ws)%list, r2)).
Proof.
  induction xs as [| x xs IH]; intros rng.
  - cbn [app BaseSpace.map_eval bind].
    now destruct (BaseSpace.map_eval RandomState ev ys rng) as [[ws r2] | e |].
  - cbn [app BaseSpace.map_eval].
    destruct (ev x rng) as [[v r1] | e |]; cbn [bind]; try reflexivity.
    rewrite IH.
    destruct (BaseSpace.map_eval RandomState ev xs r1) as [[vs r2] | e |];
      cbn [bind]; try reflexivity.
    now destruct (BaseSpace.map_eval RandomState ev ys r2) as [[ws r3] | e |].
Qed.


(** The array case of [eval], when the array node itself does not dispatch. *)
Lemma eval_array (fuel : nat) (items : list value) (rng : RandomState) :
  this undefined = None ->
  BaseSpace.eval RandomState newRandomState this (S fuel) (VArr items) (Some rng)
  = ('(vs, rng') <-
       BaseSpace.map_eval RandomState
         (BaseSpace.call RandomState
            (BaseSpace.eval RandomState newRandomState this fuel))
         items rng ;;
     Ok (VArr vs, Some rng')).
Proof.
  intros Hthis. cbn [BaseSpace.eval strict_eq orb BaseSpace.name_of].
  now rewrite Hthis.
Qed.


(** X22: an array is evaluated from left to right on one random state:
    evaluating [xs ++ ys] is evaluating [xs] and then [ys] from the state
    [xs] left; and when the element after [xs] throws, the whole evaluation
    throws that error, whatever follows the element. *)
Theorem eval_array_left_to_right
    (fuel : nat) (xs ys vs ws : list value) (r r1 r2 : RandomState) :
  this undefined = None ->
  BaseSpace.eval RandomState newRandomState this (S fuel) (VArr xs) (Some r)
  = Ok (VArr vs, Some r1) ->
  (BaseSpace.eval RandomState newRandomState this (S fuel) (VArr ys) (Some r1)
   = Ok (VArr ws, Some r2) ->
   BaseSpace.eval RandomState newRandomState this (S fuel)
                  (VArr (xs ++ ys)) (Some r)
   = Ok (VArr (vs ++ ws), Some r2))
  /\ (forall x e,
      BaseSpace.eval RandomState newRandomState this fuel x (Some r1) = Throw e ->
      BaseSpace.eval RandomState newRandomState this (S fuel)
                     (VArr (xs ++ x :: ys)) (Some r)
      = Throw e).
Proof.
  intros Hthis Hxs. rewrite eval_array in Hxs by exact Hthis.
  match type of Hxs with
  | context [BaseSpace.map_eval _ ?ev ?l ?r] =>
      destruct (BaseSpace.map_eval RandomState ev l r)
        as [[vs' r1'] | e |] eqn:Exs; try discriminate Hxs
  end.
  injection Hxs as <- <-. split.
  - intros Hys. rewrite eval_array in Hys by exact Hthis.
    match type of Hys with
    | context [BaseSpace.map_eval _ ?ev ?l ?r] =>
        destruct (BaseSpace.map_eval RandomState ev l r)
          as [[ws' r2'] | e |] eqn:Eys; try discriminate Hys
    end.
    injection Hys as <- <-.
    rewrite eval_array by exact Hthis.
    rewrite map_eval_app, Exs. cbn [bind]. now rewrite Eys.
  - intros x e Hx. rewrite eval_array by exact Hthis.
    rewrite map_eval_app, Exs. cbn [bind BaseSpace.map_eval].
    unfold BaseSpace.call at 1. now rewrite Hx.
Qed.

(** X23: at a capability call the evaluator hands the capability the node's
    own properties except [name], as they are (not evaluated), together with
    the random state, and returns what the capability returns: its value,
    the state it left, or its throw. *)
Theorem eval_dispatches_to_capability
    (fuel : nat) (props : list (string * value)) (rng : RandomState)
    (space : BaseSpace.capability RandomState) :
  this (own "name" props) = Some space ->
  let rest := BaseSpace.rest_of (VObj props) in
  BaseSpace.eval RandomState newRandomState this (S fuel) (VObj props) (Some rng)
  = match space rest rng with
    | Ok (v, rng') => Ok (v, Some rng')
    | Throw e => Throw e
    | Fuel => Fuel
    end
  /\ field rest "name" = undefined
  /\ (forall key, key <> "name" -> field rest key = own key props).
Proof.
  intros Hthis rest. split; [|split].
  - cbn [BaseSpace.eval strict_eq orb BaseSpace.name_of]. rewrite Hthis.
    subst rest.
    now destruct (space (BaseSpace.rest_of (VObj props)) rng) as [[v rng'] | e |].
  - subst rest. cbn [BaseSpace.rest_of field].
    rewrite own_without_name. now rewrite String.eqb_refl.
  - intros key Hkey. subst rest. cbn [BaseSpace.rest_of field].
    rewrite own_without_name.
    destruct (String.eqb "name" key) eqn:E; [|reflexivity].
    apply String.eqb_eq in E. now elim Hkey.
Qed.
End EvaluatorShape.


Lemma eval_array_left_to_right_witness :
  BaseSpace.eval nat 0 uniform_only 2
    (VArr ([uniform_call] ++ [uniform_call; str "relu"])) (Some 7)
  = Ok (VArr ([numv half] ++ [numv half; str "relu"]), Some 9).
Proof.
  apply (proj1 (eval_array_left_to_right nat 0 uniform_only 1
                  [uniform_call] [uniform_call; str "relu"]
                  [numv half] [numv half; str "relu"] 7 8 9
                  eq_refl eq_refl)).
  reflexivity.
Defined.

Lemma eval_dispatches_to_capability_witness :
  BaseSpace.eval nat 0 uniform_only 1 uniform_call (Some 7)
  = Ok (numv half, Some 8).
Proof.
  apply (eval_dispatches_to_capability nat 0 uniform_only 0
           [("name", str "uniform"); ("low", numv tenth)] 7
           (fun _ rng => Ok (numv half, S rng))).
  reflexivity.
Defined.
